(** * my-manet-routing-compare.cc: throughput sampling and traffic set-up

    A shallow embedding of [RoutingExperiment] (the class of
    my-manet-routing-compare.cc) and of [main], together with the small part
    of ns-3 the program drives: the event scheduler, output streams, node and
    interface containers and the uniform random variable.

    Conventions.
    - [uint32_t] values are [N]; every [+=] on them is written with its
      wrap-around modulo 2^32.  [int] values are [Z].
    - A [double] is the rational it denotes ([Q]); rounding is not modelled.
    - Virtual time is counted in seconds, as the program only builds times
      with [Seconds (...)] and only reads them with [GetSeconds ()].
    - An output stream is the sequence of values inserted with [<<]; a line
      is what was inserted up to [std::endl].  How a [double] is printed is
      left to the C++ library ([show_double] below is a parameter). *)

From Stdlib Require Import ZArith NArith QArith Lqa String Ascii List Bool Lia.
From Stdlib Require Import DecimalString Sorted.
From stdpp Require Import gmap strings list fin_maps.

Local Open Scope Z_scope.

(** ** Machine integers *)

Definition wrap32 (n : N) : N := (n mod 2 ^ 32)%N.

(** ** Output streams *)

Inductive Token :=
| TStr (s : string)      (* a string literal or std::string *)
| TDouble (x : Q)        (* a double *)
| TUint (n : N)          (* a uint32_t *)
| TInt (n : Z)           (* an int *)
| TIpv4 (a : N).         (* an Ipv4Address, printed as a dotted quad *)

Abbreviation Line := (list Token).

Definition show_uint (n : N) : string := NilZero.string_of_uint (N.to_uint n).
Definition show_int (n : Z) : string := NilZero.string_of_int (Z.to_int n).

Definition show_ipv4 (a : N) : string :=
  show_uint ((a / 2 ^ 24) mod 256) +:+ "." +:+
  show_uint ((a / 2 ^ 16) mod 256) +:+ "." +:+
  show_uint ((a / 2 ^ 8) mod 256) +:+ "." +:+
  show_uint (a mod 256).

Definition token_text (show_double : Q -> string) (t : Token) : string :=
  match t with
  | TStr s => s
  | TDouble x => show_double x
  | TUint n => show_uint n
  | TInt n => show_int n
  | TIpv4 a => show_ipv4 a
  end.

Fixpoint line_text (show_double : Q -> string) (l : Line) : string :=
  match l with
  | [] => EmptyString
  | t :: l' => token_text show_double t +:+ line_text show_double l'
  end.

(** Files: a name is bound to the lines written so far. *)

Definition ofstream_trunc (name : string) (lines : list Line)
    (fs : gmap string (list Line)) : gmap string (list Line) :=
  <[name := lines]> fs.

Definition ofstream_app (name : string) (line : Line)
    (fs : gmap string (list Line)) : gmap string (list Line) :=
  <[name := default [] (fs !! name) ++ [line]]> fs.

Definition file (name : string) (fs : gmap string (list Line)) : list Line :=
  default [] (fs !! name).

(** ** ns-3: time, addresses, packets, sockets *)

Definition Time := Q.
Definition Seconds (s : Q) : Time := s.
Definition GetSeconds (t : Time) : Q := t.

Inductive Address :=
| InetSocketAddr (ipv4 : N) (prt : N)  (* carries the InetSocketAddress type tag *)
| OtherAddr (tag : N).                 (* any other address, also Address () *)

Definition IsMatchingType (a : Address) : bool :=
  match a with InetSocketAddr _ _ => true | OtherAddr _ => false end.

(** [InetSocketAddress::ConvertFrom (a).GetIpv4 ()]; the conversion asserts
    the type tag, so that only the first case is ever used. *)
Definition ConvertFrom_GetIpv4 (a : Address) : N :=
  match a with InetSocketAddr ipv4 _ => ipv4 | OtherAddr _ => 0%N end.

Record Packet := { GetSize : N }.

(** A socket as the receive callback sees it: the node it lives on and the
    datagrams waiting in its receive queue, each with its sender. *)
Record Socket := { GetNode_GetId : N; rx_queue : list (Packet * Address) }.

(** ** ns-3: the scheduler *)

Inductive EventImpl :=
| EvStop                      (* Simulator::Stop *)
| EvCheckThroughput           (* &RoutingExperiment::CheckThroughput, this *)
| EvReceive (socket : Socket). (* the receive callback of a socket *)

Record Event := { ev_ts : Time; ev_impl : EventImpl }.

(** The queue is kept in dispatch order, as ns-3's scheduler dispatches: by
    time stamp, and among equal time stamps in the order of scheduling (its
    events are keyed by time stamp and then by a serial number).  So a new
    event goes behind every queued event due no later than itself. *)
Fixpoint Insert (ev : Event) (q : list Event) : list Event :=
  match q with
  | [] => [ev]
  | x :: q' =>
      if Qle_bool (ev_ts x) (ev_ts ev) then x :: Insert ev q' else ev :: x :: q'
  end.

(** ** The experiment *)

Record RoutingExperiment := {
  port : N;
  bytesTotal : N;
  packetsReceived : N;
  m_CSVfileName : string;
  m_nSinks : Z;
  m_protocolName : string;
  m_txp : Q;
  m_traceMobility : bool;
  m_protocol : N
}.

Inductive RoutingHelper :=
| Ipv4StaticRoutingHelper | AodvHelper | OlsrHelper | DsdvHelper | DsrHelper.

(** What one iteration of the loop of [Run] installs: a packet sink and an
    on-off source, with their start and stop times. *)
Record FlowSpec := {
  sinkNode : nat;
  sinkAddress : Address;
  sinkStart : Time;
  sinkStop : Time;
  sourceNode : nat;
  remoteAddress : Address;
  sourceStart : Time;
  sourceStop : Time
}.

Record World := {
  this : RoutingExperiment;
  Now : Time;
  events : list Event;
  m_stop : bool;
  fs : gmap string (list Line);
  console : list Line;               (* NS_LOG_UNCOND *)
  routing : list (RoutingHelper * Z);  (* Ipv4ListRoutingHelper, installed *)
  flows : list FlowSpec
}.

Definition set_this (e : RoutingExperiment) (w : World) : World :=
  {| this := e; Now := Now w; events := events w; m_stop := m_stop w;
     fs := fs w; console := console w; routing := routing w; flows := flows w |}.
Definition set_Now (t : Time) (w : World) : World :=
  {| this := this w; Now := t; events := events w; m_stop := m_stop w;
     fs := fs w; console := console w; routing := routing w; flows := flows w |}.
Definition set_events (q : list Event) (w : World) : World :=
  {| this := this w; Now := Now w; events := q; m_stop := m_stop w;
     fs := fs w; console := console w; routing := routing w; flows := flows w |}.
Definition set_m_stop (b : bool) (w : World) : World :=
  {| this := this w; Now := Now w; events := events w; m_stop := b;
     fs := fs w; console := console w; routing := routing w; flows := flows w |}.
Definition set_fs (f : gmap string (list Line)) (w : World) : World :=
  {| this := this w; Now := Now w; events := events w; m_stop := m_stop w;
     fs := f; console := console w; routing := routing w; flows := flows w |}.
Definition set_console (c : list Line) (w : World) : World :=
  {| this := this w; Now := Now w; events := events w; m_stop := m_stop w;
     fs := fs w; console := c; routing := routing w; flows := flows w |}.
Definition set_routing (r : list (RoutingHelper * Z)) (w : World) : World :=
  {| this := this w; Now := Now w; events := events w; m_stop := m_stop w;
     fs := fs w; console := console w; routing := r; flows := flows w |}.
Definition set_flows (f : list FlowSpec) (w : World) : World :=
  {| this := this w; Now := Now w; events := events w; m_stop := m_stop w;
     fs := fs w; console := console w; routing := routing w; flows := f |}.

Definition set_bytesTotal (n : N) (e : RoutingExperiment) : RoutingExperiment :=
  {| port := port e; bytesTotal := n; packetsReceived := packetsReceived e;
     m_CSVfileName := m_CSVfileName e; m_nSinks := m_nSinks e;
     m_protocolName := m_protocolName e; m_txp := m_txp e;
     m_traceMobility := m_traceMobility e; m_protocol := m_protocol e |}.
Definition set_packetsReceived (n : N) (e : RoutingExperiment) : RoutingExperiment :=
  {| port := port e; bytesTotal := bytesTotal e; packetsReceived := n;
     m_CSVfileName := m_CSVfileName e; m_nSinks := m_nSinks e;
     m_protocolName := m_protocolName e; m_txp := m_txp e;
     m_traceMobility := m_traceMobility e; m_protocol := m_protocol e |}.
Definition set_m_CSVfileName (s : string) (e : RoutingExperiment) : RoutingExperiment :=
  {| port := port e; bytesTotal := bytesTotal e; packetsReceived := packetsReceived e;
     m_CSVfileName := s; m_nSinks := m_nSinks e;
     m_protocolName := m_protocolName e; m_txp := m_txp e;
     m_traceMobility := m_traceMobility e; m_protocol := m_protocol e |}.
Definition set_m_nSinks (n : Z) (e : RoutingExperiment) : RoutingExperiment :=
  {| port := port e; bytesTotal := bytesTotal e; packetsReceived := packetsReceived e;
     m_CSVfileName := m_CSVfileName e; m_nSinks := n;
     m_protocolName := m_protocolName e; m_txp := m_txp e;
     m_traceMobility := m_traceMobility e; m_protocol := m_protocol e |}.
Definition set_m_protocolName (s : string) (e : RoutingExperiment) : RoutingExperiment :=
  {| port := port e; bytesTotal := bytesTotal e; packetsReceived := packetsReceived e;
     m_CSVfileName := m_CSVfileName e; m_nSinks := m_nSinks e;
     m_protocolName := s; m_txp := m_txp e;
     m_traceMobility := m_traceMobility e; m_protocol := m_protocol e |}.
Definition set_m_txp (x : Q) (e : RoutingExperiment) : RoutingExperiment :=
  {| port := port e; bytesTotal := bytesTotal e; packetsReceived := packetsReceived e;
     m_CSVfileName := m_CSVfileName e; m_nSinks := m_nSinks e;
     m_protocolName := m_protocolName e; m_txp := x;
     m_traceMobility := m_traceMobility e; m_protocol := m_protocol e |}.
Definition set_m_traceMobility (b : bool) (e : RoutingExperiment) : RoutingExperiment :=
  {| port := port e; bytesTotal := bytesTotal e; packetsReceived := packetsReceived e;
     m_CSVfileName := m_CSVfileName e; m_nSinks := m_nSinks e;
     m_protocolName := m_protocolName e; m_txp := m_txp e;
     m_traceMobility := b; m_protocol := m_protocol e |}.
Definition set_m_protocol (p : N) (e : RoutingExperiment) : RoutingExperiment :=
  {| port := port e; bytesTotal := bytesTotal e; packetsReceived := packetsReceived e;
     m_CSVfileName := m_CSVfileName e; m_nSinks := m_nSinks e;
     m_protocolName := m_protocolName e; m_txp := m_txp e;
     m_traceMobility := m_traceMobility e; m_protocol := p |}.

(** [Simulator::Schedule (delay, ...)]: the event is due at [Now + delay]. *)
Definition Schedule (delay : Time) (impl : EventImpl) (w : World) : World :=
  set_events (Insert {| ev_ts := (Now w + delay)%Q; ev_impl := impl |} (events w)) w.

(** [Simulator::Stop (delay)] schedules the stop as an event of its own,
    which sets the flag the event loop tests. *)
Definition Simulator_Stop (delay : Time) (w : World) : World :=
  Schedule delay EvStop w.

(** The constructor.  [m_nSinks] and [m_txp] have no initialiser: they hold
    whatever the storage held. *)
Definition RoutingExperiment_new (junk_nSinks : Z) (junk_txp : Q) : RoutingExperiment :=
  {| port := 9;
     bytesTotal := 0;
     packetsReceived := 0;
     m_CSVfileName := "AODV-simulation.csv";
     m_nSinks := junk_nSinks;
     m_protocolName := "";
     m_txp := junk_txp;
     m_traceMobility := true;
     m_protocol := 2 |}.

Definition PrintReceivedPacket (t : Time) (socket : Socket) (packet : Packet)
    (senderAddress : Address) : Line :=
  let oss := [TDouble (GetSeconds t); TStr " "; TUint (GetNode_GetId socket)] in
  if IsMatchingType senderAddress
  then oss ++ [TStr " received one packet from ";
               TIpv4 (ConvertFrom_GetIpv4 senderAddress)]
  else oss ++ [TStr " received one packet!"].

(** The body of the loop of [ReceivePacket], for one datagram. *)
Definition ReceivePacket_body (socket : Socket) (packet : Packet)
    (senderAddress : Address) (w : World) : World :=
  let w := set_this
             (set_bytesTotal (wrap32 (bytesTotal (this w) + GetSize packet)) (this w)) w in
  let w := set_this
             (set_packetsReceived (wrap32 (packetsReceived (this w) + 1)) (this w)) w in
  set_console
    (console w ++ [PrintReceivedPacket (Now w) socket packet senderAddress]) w.

(** The loop of [ReceivePacket]: [RecvFrom] takes the datagram at the head of
    the queue and yields a null pointer once the queue is empty. *)
Fixpoint ReceivePacket_loop (socket : Socket) (rx : list (Packet * Address))
    (w : World) : World :=
  match rx with
  | [] => w
  | (packet, senderAddress) :: rx' =>
      ReceivePacket_loop socket rx' (ReceivePacket_body socket packet senderAddress w)
  end.

Definition ReceivePacket (socket : Socket) (w : World) : World :=
  ReceivePacket_loop socket (rx_queue socket) w.

Definition CheckThroughput (w : World) : World :=
  let kbs := (inject_Z (Z.of_N (bytesTotal (this w))) * 8 / 1000)%Q in
  let w1 := set_this (set_bytesTotal 0 (this w)) w in
  let e := this w1 in
  let row :=
    [TDouble (GetSeconds (Now w1)); TStr ",";
     TDouble kbs; TStr ",";
     TUint (packetsReceived e); TStr ",";
     TInt (m_nSinks e); TStr ",";
     TStr (m_protocolName e); TStr ",";
     TDouble (m_txp e); TStr ""] in
  let w2 := set_fs (ofstream_app (m_CSVfileName e) row (fs w1)) w1 in
  let w3 := set_this (set_packetsReceived 0 (this w2)) w2 in
  Schedule (Seconds 1) EvCheckThroughput w3.

(** ** ns-3: the event loop *)

Definition Invoke (impl : EventImpl) (w : World) : World :=
  match impl with
  | EvStop => set_m_stop true w
  | EvCheckThroughput => CheckThroughput w
  | EvReceive socket => ReceivePacket socket w
  end.

Definition ProcessOneEvent (w : World) : World :=
  match events w with
  | [] => w
  | ev :: q => Invoke (ev_impl ev) (set_Now (ev_ts ev) (set_events q w))
  end.

Definition IsFinished (w : World) : bool :=
  match events w with [] => true | _ :: _ => m_stop w end.

(** [Simulator::Run]: [while (!m_events->IsEmpty () && !m_stop) ProcessOneEvent ()],
    unrolled at most [fuel] times. *)
Fixpoint Simulator_Run (fuel : nat) (w : World) : World :=
  match fuel with
  | O => w
  | S n => if IsFinished w then w else Simulator_Run n (ProcessOneEvent w)
  end.

(** ** ns-3: containers and random variables *)

(** [NodeContainer::Create (n)]: the next [n] node ids. *)
Definition NodeContainer_Create (first n : nat) : list nat := seq first n.

(** [c.Get (i)] and [c.GetAddress (i)] index a [std::vector] without a bounds
    check; [None] stands for the undefined behaviour out of range. *)
Definition Get {A} (c : list A) (i : Z) : option A :=
  if i <? 0 then None else c !! Z.to_nat i.

(** [Ipv4AddressHelper::Assign]: the devices get base + 1, base + 2, ... *)
Definition Ipv4AddressHelper_Assign (base : N) (devices : list nat) : list N :=
  map (fun k => (base + 1 + N.of_nat k)%N) (seq 0 (length devices)).

(** [UniformRandomVariable::GetValue (min, max)], from the next number [u]
    of the stream, which lies in [0, 1). *)
Definition GetValue (u min max : Q) : Q := (min + u * (max - min))%Q.

(** ** [RoutingExperiment::Run] *)

(** The loop [for (int i = 0; i < nSinks; i++)], with [n] iterations to go.
    The [i]-th iteration creates its own random variable, whose stream is
    [rng i]; its first number gives the start of the sink, its second the
    start of the source. *)
Fixpoint InstallFlows (n : nat) (i nSinks : Z) (TotalTime : Q) (prt : N)
    (rng : nat -> nat -> Q) (all_Nodes : list nat) (adhocInterfaces : list N)
    : option (list FlowSpec) :=
  match n with
  | O => Some []
  | S n' =>
      let var := rng (Z.to_nat i) in
      match Get adhocInterfaces i, Get all_Nodes i, Get all_Nodes (i + nSinks) with
      | Some addr, Some snk, Some src =>
          let flow :=
            {| sinkNode := snk;
               sinkAddress := InetSocketAddr addr (prt mod 2 ^ 16);
               sinkStart := Seconds (GetValue (var 0%nat) 0 1);
               sinkStop := Seconds TotalTime;
               sourceNode := src;
               remoteAddress := InetSocketAddr addr (prt mod 2 ^ 16);
               sourceStart := Seconds (GetValue (var 1%nat) 100 101);
               sourceStop := Seconds TotalTime |} in
          match InstallFlows n' (i + 1) nSinks TotalTime prt rng all_Nodes adhocInterfaces with
          | Some rest => Some (flow :: rest)
          | None => None
          end
      | _, _, _ => None
      end
  end.

(** The receptions the network raises during the run, each as a delay from
    the start and the socket whose callback fires.  [Run] as written installs
    [PacketSink] applications and never calls [SetupPacketReceive], so that
    no socket carries [ReceivePacket] and the list is empty; the results
    below hold for every list. *)
Definition Network_events (net : list (Time * Socket)) (w : World) : World :=
  fold_left (fun w' ds => Schedule (fst ds) (EvReceive (snd ds)) w') net w.

Definition nWifis : nat := 15.
Definition TotalTime : Q := 103.

(** The containers [Run] builds: [nWifis] mobile and [nWifis] static nodes,
    one device and one interface on each. *)
Definition Run_all_Nodes : list nat :=
  let adhocNodes := NodeContainer_Create 0 nWifis in
  let staticNodes := NodeContainer_Create nWifis nWifis in
  adhocNodes ++ staticNodes.

Definition Run_adhocInterfaces : list N :=
  let adhocDevices := Run_all_Nodes in
  Ipv4AddressHelper_Assign 167837952 adhocDevices.   (* "10.1.1.0" *)

(** [Run], in the order of the source: the members, the routing list, the
    flows, the first call of the sampler, the stop event, the event loop.
    The radio, the mobility model and the trace, pcap, animation and flow
    monitor files are left out: they neither read nor write the members of
    the experiment, the sampler's events or the CSV file. *)
Definition Run (nSinks : Z) (txp : Q) (CSVfileName : string)
    (rng : nat -> nat -> Q) (net : list (Time * Socket)) (fuel : nat)
    (w : World) : option World :=
  let w := set_this (set_m_nSinks nSinks (this w)) w in
  let w := set_this (set_m_txp txp (this w)) w in
  let w := set_this (set_m_CSVfileName CSVfileName (this w)) w in
  let w := set_this (set_m_protocolName "protocol" (this w)) w in
  let list := [(Ipv4StaticRoutingHelper, 0); (AodvHelper, 60)] in
  let w := set_this (set_m_protocolName "AODV" (this w)) w in
  let w := set_routing list w in
  match InstallFlows (Z.to_nat nSinks) 0 nSinks TotalTime (port (this w)) rng
          Run_all_Nodes Run_adhocInterfaces with
  | None => None
  | Some fl =>
      let w := set_flows fl w in
      let w := Network_events net w in
      let w := CheckThroughput w in
      let w := Simulator_Stop (Seconds TotalTime) w in
      Some (Simulator_Run fuel w)
  end.

(** ** [CommandSetup] and [main] *)

(** The two options [CommandSetup] registers, as parsed from [argv].  An
    argument the parser rejects ends the program before anything is written:
    see [Parse] and [main_argv] below. *)
Record CommandLine := {
  arg_CSVfileName : option string;
  arg_traceMobility : option bool
}.

Definition CommandSetup (cmd : CommandLine) (w : World) : World * string :=
  let e := this w in
  let e := match arg_CSVfileName cmd with
           | Some s => set_m_CSVfileName s e | None => e end in
  let e := match arg_traceMobility cmd with
           | Some b => set_m_traceMobility b e | None => e end in
  (set_this e w, m_CSVfileName e).

Definition header : Line :=
  [TStr "SimulationSecond,"; TStr "ReceiveRate,"; TStr "PacketsReceived,";
   TStr "NumberOfSinks,"; TStr "RoutingProtocol,"; TStr "TransmissionPower"].

Definition header_text : string :=
  "SimulationSecond,ReceiveRate,PacketsReceived,NumberOfSinks,RoutingProtocol,TransmissionPower".

(** The world a program starts in: an experiment object, virtual time 0, no
    event, and whatever files exist. *)
Definition World_of (e : RoutingExperiment) (fs0 : gmap string (list Line)) : World :=
  {| this := e;
     Now := 0%Q; events := []; m_stop := false; fs := fs0;
     console := []; routing := []; flows := [] |}.

Definition World_new (junk_nSinks : Z) (junk_txp : Q)
    (fs0 : gmap string (list Line)) : World :=
  World_of (RoutingExperiment_new junk_nSinks junk_txp) fs0.

(** The first half of [main]: parse the command line, then blank out the
    output file and write the column headers. *)
Definition main_header (cmd : CommandLine) (w : World) : World * string :=
  let '(w, CSVfileName) := CommandSetup cmd w in
  (set_fs (ofstream_trunc CSVfileName [header] (fs w)) w, CSVfileName).

Definition main (cmd : CommandLine) (junk_nSinks : Z) (junk_txp : Q)
    (fs0 : gmap string (list Line))
    (rng : nat -> nat -> Q) (net : list (Time * Socket)) (fuel : nat)
    : option World :=
  let experiment := World_new junk_nSinks junk_txp fs0 in
  let '(w, CSVfileName) := main_header cmd experiment in
  let nSinks := 15 in
  let txp := 7.5%Q in
  Run nSinks txp CSVfileName rng net fuel w.

(** ** Reading the output back *)

(** The data row of a sample, as [CheckThroughput] streams it. *)
Record SampleRow := {
  timestamp : Q;
  rateKbps : Q;
  packetCount : N;
  sinkCount : Z;
  protocolLabel : string;
  txPowerDbm : Q
}.

Definition row_line (r : SampleRow) : Line :=
  [TDouble (timestamp r); TStr ","; TDouble (rateKbps r); TStr ",";
   TUint (packetCount r); TStr ","; TInt (sinkCount r); TStr ",";
   TStr (protocolLabel r); TStr ","; TDouble (txPowerDbm r); TStr ""].

(** * Vocabulary of the properties *)

(** ** The queue *)

(** The events the program schedules itself, as opposed to receptions. *)
Definition is_own (ev : Event) : bool :=
  match ev_impl ev with EvReceive _ => false | _ => true end.

Definition own (q : list Event) : list Event := List.filter is_own q.

(** The queue is in order of time stamps. *)
Definition sorted (q : list Event) : Prop :=
  StronglySorted (fun a b => (ev_ts a <= ev_ts b)%Q) q.

(** The virtual time [k] seconds, the firing of the sampler due then, and
    the stop event of [Run]. *)
Definition at_second (k : nat) : Q := inject_Z (Z.of_nat k).

Definition CT (k : nat) : Event :=
  {| ev_ts := at_second k; ev_impl := EvCheckThroughput |}.
Definition STOP : Event := {| ev_ts := 103%Q; ev_impl := EvStop |}.

(** ** Files, fields and rows *)

(** The file system after [lines] were appended to [name], one by one. *)
Definition append_lines (name : string) (lines : list Line)
    (f : gmap string (list Line)) : gmap string (list Line) :=
  fold_left (fun f' l => ofstream_app name l f') lines f.

(** The fields no event handler assigns. *)
Definition config (w : World) :=
  (m_CSVfileName (this w), m_nSinks (this w), m_protocolName (this w),
   m_txp (this w), m_protocol (this w), port (this w), m_traceMobility (this w),
   routing w, flows w).

(** The bytes of a sequence of datagrams. *)
Definition sum_sizes (rx : list (Packet * Address)) : N :=
  fold_right (fun pa s => (GetSize (fst pa) + s)%N) 0%N rx.

(** The row a firing at time [t] writes, from the counters of [w]. *)
Definition sampled (t : Time) (w : World) : SampleRow :=
  {| timestamp := GetSeconds t;
     rateKbps := (inject_Z (Z.of_N (bytesTotal (this w))) * 8 / 1000)%Q;
     packetCount := packetsReceived (this w);
     sinkCount := m_nSinks (this w);
     protocolLabel := m_protocolName (this w);
     txPowerDbm := m_txp (this w) |}.

(** The row carries the sink count, label and power of the experiment. *)
Definition row_ok (w : World) (r : SampleRow) : Prop :=
  sinkCount r = m_nSinks (this w) /\
  protocolLabel r = m_protocolName (this w) /\
  txPowerDbm r = m_txp (this w).

(** From [w] to [w'] the rows [rows] were appended to the output file, in
    this order, and nothing else was written. *)
Definition wrote (w w' : World) (rows : list SampleRow) : Prop :=
  config w' = config w /\
  fs w' = append_lines (m_CSVfileName (this w)) (map row_line rows) (fs w) /\
  Forall (row_ok w) rows.

(** The program's own events in the queue once the sampler is armed for
    second [j]: the stop event is due at 103 and was scheduled before the
    firing for second 103. *)
Definition own_at (j : nat) : list Event :=
  if (j <? 103)%nat then [CT j; STOP] else [STOP; CT j].

(** ** [Run] and [main] *)

(** The flow the iteration for index [k] installs. *)
Definition flow_of (nSinks : Z) (TT : Q) (prt : N) (rng : nat -> nat -> Q)
    (k : nat) : FlowSpec :=
  {| sinkNode := k;
     sinkAddress := InetSocketAddr (167837952 + 1 + N.of_nat k) (prt mod 2 ^ 16);
     sinkStart := Seconds (GetValue (rng k 0%nat) 0 1);
     sinkStop := Seconds TT;
     sourceNode := (k + Z.to_nat nSinks)%nat;
     remoteAddress := InetSocketAddr (167837952 + 1 + N.of_nat k) (prt mod 2 ^ 16);
     sourceStart := Seconds (GetValue (rng k 1%nat) 100 101);
     sourceStop := Seconds TT |}.

(** The first row of a run: the sampler is called once from [Run] itself,
    at time 0, with the counters the experiment object holds. *)
Definition first_row (e : RoutingExperiment) (nSinks : Z) (txp : Q) : SampleRow :=
  {| timestamp := 0;
     rateKbps := (inject_Z (Z.of_N (bytesTotal e)) * 8 / 1000)%Q;
     packetCount := packetsReceived e;
     sinkCount := nSinks;
     protocolLabel := "AODV";
     txPowerDbm := txp |}.

(** The fields of the experiment and of the network once [Run] has set them. *)
Definition Run_config (e : RoutingExperiment) (nSinks : Z) (txp : Q)
    (name : string) (rng : nat -> nat -> Q) :=
  (name, nSinks, "AODV"%string, txp, m_protocol e, port e, m_traceMobility e,
   [(Ipv4StaticRoutingHelper, 0); (AodvHelper, 60)],
   map (flow_of nSinks TotalTime (port e) rng) (seq 0 (Z.to_nat nSinks))).

(** The row carries what [Run] has set: sink count, "AODV" and power. *)
Definition row_static (nSinks : Z) (txp : Q) (r : SampleRow) : Prop :=
  sinkCount r = nSinks /\ protocolLabel r = "AODV"%string /\ txPowerDbm r = txp.

(** The name of the output file and the experiment object after
    [CommandSetup]. *)
Definition csv_name (cmd : CommandLine) : string :=
  default "AODV-simulation.csv"%string (arg_CSVfileName cmd).

Definition experiment_of (cmd : CommandLine) (junk_nSinks : Z) (junk_txp : Q)
    : RoutingExperiment :=
  this (fst (CommandSetup cmd (World_new junk_nSinks junk_txp ∅))).

(** ** Text *)

(** The character is one of 0 to 9; the string has such a character. *)
Definition is_digit (c : ascii) : bool :=
  let n := nat_of_ascii c in (48 <=? n)%nat && (n <=? 57)%nat.

Fixpoint has_digit (s : string) : bool :=
  match s with
  | EmptyString => false
  | String c s' => is_digit c || has_digit s'
  end.

(** ** Concrete inputs, the running loop, windows *)

(** The command line with no option. *)
Definition no_args : CommandLine :=
  {| arg_CSVfileName := None; arg_traceMobility := None |}.

(** A stream of random numbers for concrete runs: every draw is 1/2. *)
Definition half : nat -> nat -> Q := fun _ _ => (1 # 2)%Q.

(** No stop event is queued; a firing of the sampler is queued. *)
Definition no_stop_scheduled (q : list Event) : Prop :=
  Forall (fun ev => ev_impl ev <> EvStop) q.

Definition armed (q : list Event) : Prop :=
  Exists (fun ev => ev_impl ev = EvCheckThroughput) q.

(** A reception: the scheduler sets the time and calls the callback. *)
Definition deliver (w : World) (ts : Time * Socket) : World :=
  ReceivePacket (snd ts) (set_Now (fst ts) w).

(** The datagrams of a sequence of receptions, in order of arrival. *)
Definition window (dl : list (Time * Socket)) : list (Packet * Address) :=
  concat (map (fun ts => rx_queue (snd ts)) dl).

(** The world after a firing, the receptions [dl] and the next firing, due
    at time [t]. *)
Definition next_firing (w0 : World) (dl : list (Time * Socket)) (t : Time) : World :=
  CheckThroughput (set_Now t (fold_left deliver dl (CheckThroughput w0))).

(** A datagram of 2^31 bytes, a socket holding two of them, and a socket
    holding one datagram of [n] bytes. *)
Definition big_packet : Packet := {| GetSize := 2147483648 |}.
Definition two_big_packets : Socket :=
  {| GetNode_GetId := 0;
     rx_queue := [(big_packet, OtherAddr 0); (big_packet, OtherAddr 0)] |}.

Definition packet_of (n : N) : Socket :=
  {| GetNode_GetId := 0; rx_queue := [({| GetSize := n |}, OtherAddr 0)] |}.

(** ** Several windows, and the options of the command line *)

(** A window: the receptions of the window, then the time of the firing that
    closes it.  [fire_after] runs one window from [w]. *)
Definition fire_after (w : World) (win : list (Time * Socket) * Time) : World :=
  CheckThroughput (set_Now (snd win) (fold_left deliver (fst win) w)).

(** The row that closes a window, from the window alone and the fields of
    the experiment. *)
Definition window_sample (w : World) (win : list (Time * Socket) * Time) : SampleRow :=
  {| timestamp := GetSeconds (snd win);
     rateKbps := (inject_Z (Z.of_N (wrap32 (sum_sizes (window (fst win))))) * 8 / 1000)%Q;
     packetCount := wrap32 (N.of_nat (length (window (fst win))));
     sinkCount := m_nSinks (this w);
     protocolLabel := m_protocolName (this w);
     txPowerDbm := m_txp (this w) |}.

(** The world with the mobility-trace flag set to [b]. *)
Definition with_traceMobility (b : bool) (w : World) : World :=
  set_this (set_m_traceMobility b (this w)) w.

(** Nothing was received and nothing will be: both counters are zero, the
    queue holds no reception, the console is empty. *)
Definition quiet (w : World) : Prop :=
  bytesTotal (this w) = 0%N /\ packetsReceived (this w) = 0%N /\
  Forall (fun ev => is_own ev = true) (events w) /\ console w = [].

(** The row reports no traffic. *)
Definition zero_row (r : SampleRow) : Prop :=
  (rateKbps r == 0)%Q /\ packetCount r = 0%N.

(** ** The command line as given *)

(** What ns-3's [CommandLine] does with an argument [--name=value] whose
    name the program has not registered: it accepts it (a global value or
    the default of an attribute is set, and parsing goes on), or it exits
    (after the help it was asked for, or with status 1 after reporting an
    invalid argument). *)
Inductive Handled :=
| Accepts
| Exits (status : Z).

(** How a run of the program ends: [main] returns; the program exits in
    [cmd.Parse], the files as they were; or [Run] makes its out-of-range
    access. *)
Inductive Outcome :=
| Ran (w : World)
| Exited (status : Z) (files : gmap string (list Line))
| Undefined.

Section CommandLineParse.
(** The library's part: the names it handles itself, and how it reads a
    [std::string] and a [bool] from the text of a value, the latter given
    the value the variable holds ([None]: the text is refused). *)
Variable ns3_option : string -> string -> Handled.
Variable parse_string : string -> option string.
Variable parse_bool : bool -> string -> option bool.

(** [cmd.Parse (argc, argv)] after the two [AddValue] of [CommandSetup]: the
    arguments in order, each as its name and its value.  [cmd] holds what
    the arguments so far have set, [trace0] is what [m_traceMobility] held
    before.  The [AddValue] for "protocol" is commented out in the source:
    that name is not registered. *)
Fixpoint Parse (trace0 : bool) (args : list (string * string))
    (cmd : CommandLine) : CommandLine + Z :=
  match args with
  | [] => inl cmd
  | (name, value) :: rest =>
      if String.eqb name "CSVfileName" then
        match parse_string value with
        | Some s =>
            Parse trace0 rest
              {| arg_CSVfileName := Some s;
                 arg_traceMobility := arg_traceMobility cmd |}
        | None => inr 1
        end
      else if String.eqb name "traceMobility" then
        match parse_bool (default trace0 (arg_traceMobility cmd)) value with
        | Some b =>
            Parse trace0 rest
              {| arg_CSVfileName := arg_CSVfileName cmd;
                 arg_traceMobility := Some b |}
        | None => inr 1
        end
      else
        match ns3_option name value with
        | Accepts => Parse trace0 rest cmd
        | Exits status => inr status
        end
  end.

(** [main] from the arguments as given: the parser runs first, inside
    [CommandSetup], before the output file is opened. *)
Definition main_argv (args : list (string * string))
    (junk_nSinks : Z) (junk_txp : Q) (fs0 : gmap string (list Line))
    (rng : nat -> nat -> Q) (net : list (Time * Socket)) (fuel : nat) : Outcome :=
  match Parse (m_traceMobility (RoutingExperiment_new junk_nSinks junk_txp))
          args no_args with
  | inr status => Exited status fs0
  | inl cmd =>
      match main cmd junk_nSinks junk_txp fs0 rng net fuel with
      | Some w => Ran w
      | None => Undefined
      end
  end.
End CommandLineParse.

(** For concrete runs: a library that handles no name of its own, takes a
    string as it stands, and reads "true" and "false" only. *)
Definition only_registered : string -> string -> Handled := fun _ _ => Exits 1.

Definition plain_string (text : string) : option string := Some text.

Definition plain_bool (current : bool) (text : string) : option bool :=
  if String.eqb text "true" then Some true
  else if String.eqb text "false" then Some false
  else None.

(** * Properties *)

(** ** The event queue *)

Lemma Insert_length ev q : length (Insert ev q) = S (length q).
Proof.
  induction q as [|x q IH]; simpl; [reflexivity|].
  destruct (Qle_bool (ev_ts x) (ev_ts ev)); simpl; congruence.
Qed.

Lemma Insert_Forall (P : Event -> Prop) ev q :
  P ev -> Forall P q -> Forall P (Insert ev q).
Proof.
  intros Hev Hq. induction Hq as [|x q Hx Hq IH]; simpl.
  - constructor; [assumption | constructor].
  - destruct (Qle_bool (ev_ts x) (ev_ts ev)); repeat constructor; assumption.
Qed.

Lemma Insert_In ev q : In ev (Insert ev q).
Proof.
  induction q as [|x q IH]; simpl; [left; reflexivity|].
  destruct (Qle_bool (ev_ts x) (ev_ts ev)); simpl; auto.
Qed.

Lemma Qle_bool_false x y : Qle_bool x y = false -> (y < x)%Q.
Proof.
  intros H. apply Qnot_le_lt. intros Hle.
  apply Qle_bool_iff in Hle. congruence.
Qed.

Lemma Insert_sorted ev q : sorted q -> sorted (Insert ev q).
Proof.
  unfold sorted. induction 1 as [|x q Hs IH Hx]; simpl.
  - repeat constructor.
  - destruct (Qle_bool (ev_ts x) (ev_ts ev)) eqn:E.
    + constructor; [exact IH|].
      apply Insert_Forall; [apply Qle_bool_iff; exact E | exact Hx].
    + apply Qle_bool_false in E.
      constructor; [constructor; assumption|].
      constructor; [apply Qlt_le_weak; exact E|].
      eapply Forall_impl; [exact Hx|]. simpl. intros a Ha. lra.
Qed.

Lemma sorted_tail x q : sorted (x :: q) -> sorted q.
Proof. intros H. inversion H; assumption. Qed.

Lemma own_Insert_net ev q : is_own ev = false -> own (Insert ev q) = own q.
Proof.
  intros Hev. induction q as [|x q IH]; simpl.
  - rewrite Hev. reflexivity.
  - destruct (Qle_bool (ev_ts x) (ev_ts ev)); simpl.
    + destruct (is_own x); [f_equal|]; exact IH.
    + rewrite Hev. reflexivity.
Qed.

(** An own event due before every other own event goes to the front. *)
Lemma own_Insert_front ev q :
  is_own ev = true ->
  Forall (fun x => is_own x = true -> (ev_ts ev < ev_ts x)%Q) q ->
  own (Insert ev q) = ev :: own q.
Proof.
  intros Hev Hq. induction Hq as [|x q Hx Hq IH]; simpl.
  - rewrite Hev. reflexivity.
  - destruct (Qle_bool (ev_ts x) (ev_ts ev)) eqn:E; simpl.
    + destruct (is_own x) eqn:Ex.
      * apply Qle_bool_iff in E. specialize (Hx eq_refl). lra.
      * exact IH.
    + rewrite Hev. reflexivity.
Qed.

(** An own event due no earlier than the other own events goes behind them:
    among equal time stamps the one scheduled first is dispatched first. *)
Lemma own_Insert_back ev q :
  is_own ev = true -> sorted q ->
  Forall (fun x => is_own x = true -> (ev_ts x <= ev_ts ev)%Q) q ->
  own (Insert ev q) = own q ++ [ev].
Proof.
  intros Hev Hs Hq. induction Hq as [|x q Hx Hq IH]; simpl.
  - rewrite Hev. reflexivity.
  - inversion Hs as [|? ? Hs' Hall]; subst.
    destruct (Qle_bool (ev_ts x) (ev_ts ev)) eqn:E; simpl.
    + destruct (is_own x); simpl; [f_equal|]; apply IH; assumption.
    + apply Qle_bool_false in E. rewrite Hev.
      assert (Hx' : is_own x = false).
      { destruct (is_own x); [specialize (Hx eq_refl); lra | reflexivity]. }
      rewrite Hx'. simpl.
      assert (Hnone : own q = []).
      { clear IH Hs Hs'. induction q as [|y q IHq]; [reflexivity|].
        inversion Hall as [|? ? Hy Hall']; subst.
        inversion Hq as [|? ? Hy' Hq']; subst. simpl.
        destruct (is_own y) eqn:Ey.
        - specialize (Hy' eq_refl). lra.
        - apply IHq; assumption. }
      rewrite Hnone. reflexivity.
Qed.

(** ** Files *)

Lemma file_ofstream_app name l (f : gmap string (list Line)) :
  file name (ofstream_app name l f) = file name f ++ [l].
Proof. unfold file, ofstream_app. rewrite lookup_insert_eq. reflexivity. Qed.

Lemma file_ofstream_trunc name ls (f : gmap string (list Line)) :
  file name (ofstream_trunc name ls f) = ls.
Proof. unfold file, ofstream_trunc. rewrite lookup_insert_eq. reflexivity. Qed.

Lemma file_append_lines name ls (f : gmap string (list Line)) :
  file name (append_lines name ls f) = file name f ++ ls.
Proof.
  unfold append_lines. revert f.
  induction ls as [|l ls IH]; intros f; simpl.
  - rewrite app_nil_r. reflexivity.
  - rewrite IH, file_ofstream_app, <- app_assoc. reflexivity.
Qed.

Lemma lookup_append_lines_ne name other ls (f : gmap string (list Line)) :
  name <> other -> append_lines name ls f !! other = f !! other.
Proof.
  intros Hne. unfold append_lines. revert f.
  induction ls as [|l ls IH]; intros f; simpl; [reflexivity|].
  rewrite IH. unfold ofstream_app. apply lookup_insert_ne. exact Hne.
Qed.

Lemma append_lines_app name l1 l2 (f : gmap string (list Line)) :
  append_lines name (l1 ++ l2) f = append_lines name l2 (append_lines name l1 f).
Proof. unfold append_lines. apply fold_left_app. Qed.

(** ** What a step leaves alone *)

Lemma wrap32_lt n : (wrap32 n < 2 ^ 32)%N.
Proof. unfold wrap32. apply N.mod_lt. discriminate. Qed.

Lemma wrap32_small n : (n < 2 ^ 32)%N -> wrap32 n = n.
Proof. unfold wrap32. apply N.mod_small. Qed.

Lemma wrap32_add_l a b : wrap32 (wrap32 a + b) = wrap32 (a + b).
Proof. unfold wrap32. apply N.Div0.add_mod_idemp_l. Qed.

Lemma ReceivePacket_loop_frame socket rx : forall w,
  let w' := ReceivePacket_loop socket rx w in
  config w' = config w /\ fs w' = fs w /\ events w' = events w /\
  m_stop w' = m_stop w /\ Now w' = Now w.
Proof.
  induction rx as [|[packet sender] rx IH]; intros w; cbn [ReceivePacket_loop].
  - repeat split.
  - destruct (IH (ReceivePacket_body socket packet sender w)) as (Hc & Hf & He & Hs & Hn).
    cbv zeta. rewrite Hc, Hf, He, Hs, Hn. repeat split.
Qed.

Lemma ReceivePacket_loop_console socket rx : forall w,
  console (ReceivePacket_loop socket rx w) =
  console w ++
  map (fun pa => PrintReceivedPacket (Now w) socket (fst pa) (snd pa)) rx.
Proof.
  induction rx as [|[packet sender] rx IH]; intros w; cbn [ReceivePacket_loop].
  - rewrite app_nil_r. reflexivity.
  - rewrite IH. simpl. rewrite <- app_assoc. reflexivity.
Qed.

(** The counters after a call of [ReceivePacket]: the sums, modulo 2^32. *)
Lemma ReceivePacket_loop_counters socket rx : forall w,
  (bytesTotal (this w) < 2 ^ 32)%N ->
  (packetsReceived (this w) < 2 ^ 32)%N ->
  let w' := ReceivePacket_loop socket rx w in
  bytesTotal (this w') = wrap32 (bytesTotal (this w) + sum_sizes rx) /\
  packetsReceived (this w') =
    wrap32 (packetsReceived (this w) + N.of_nat (length rx)).
Proof.
  induction rx as [|[packet sender] rx IH]; intros w Hb Hp.
  - simpl. rewrite !N.add_0_r, !wrap32_small by assumption. split; reflexivity.
  - cbn [ReceivePacket_loop].
    destruct (IH (ReceivePacket_body socket packet sender w)) as (Hb' & Hp');
      [apply wrap32_lt | apply wrap32_lt |].
    cbv zeta. rewrite Hb', Hp'.
    change (bytesTotal (this (ReceivePacket_body socket packet sender w)))
      with (wrap32 (bytesTotal (this w) + GetSize packet)).
    change (packetsReceived (this (ReceivePacket_body socket packet sender w)))
      with (wrap32 (packetsReceived (this w) + 1)).
    rewrite !wrap32_add_l.
    change (sum_sizes ((packet, sender) :: rx))
      with (GetSize packet + sum_sizes rx)%N.
    cbn [length]. split; f_equal; lia.
Qed.

(** ** One firing of the sampler *)

Lemma CheckThroughput_fs w :
  fs (CheckThroughput w) =
  ofstream_app (m_CSVfileName (this w)) (row_line (sampled (Now w) w)) (fs w).
Proof. reflexivity. Qed.

Lemma CheckThroughput_events w :
  events (CheckThroughput w) =
  Insert {| ev_ts := (Now w + Seconds 1)%Q; ev_impl := EvCheckThroughput |} (events w).
Proof. reflexivity. Qed.

Lemma CheckThroughput_counters w :
  bytesTotal (this (CheckThroughput w)) = 0%N /\
  packetsReceived (this (CheckThroughput w)) = 0%N.
Proof. split; reflexivity. Qed.

Lemma CheckThroughput_frame w :
  config (CheckThroughput w) = config w /\
  m_stop (CheckThroughput w) = m_stop w /\
  Now (CheckThroughput w) = Now w /\
  console (CheckThroughput w) = console w.
Proof. repeat split. Qed.

(** ** What a run writes *)

Lemma config_name w w' :
  config w' = config w -> m_CSVfileName (this w') = m_CSVfileName (this w).
Proof. unfold config. congruence. Qed.

Lemma config_row_ok w w' r : config w' = config w -> row_ok w' r -> row_ok w r.
Proof.
  unfold config, row_ok. intros Hc (H1 & H2 & H3).
  repeat split; congruence.
Qed.

Lemma wrote_refl w w' :
  config w' = config w -> fs w' = fs w -> wrote w w' [].
Proof. intros Hc Hf. repeat split; [exact Hc | exact Hf | constructor]. Qed.

Lemma wrote_trans w w1 w2 r1 r2 :
  wrote w w1 r1 -> wrote w1 w2 r2 -> wrote w w2 (r1 ++ r2).
Proof.
  intros (Hc1 & Hf1 & Hr1) (Hc2 & Hf2 & Hr2). repeat split.
  - congruence.
  - rewrite Hf2, Hf1, (config_name _ _ Hc1), map_app, append_lines_app.
    reflexivity.
  - apply Forall_app. split; [exact Hr1|].
    eapply Forall_impl; [exact Hr2|]. intros r. apply config_row_ok, Hc1.
Qed.

Lemma wrote_file w w' rows :
  wrote w w' rows ->
  file (m_CSVfileName (this w)) (fs w') =
  file (m_CSVfileName (this w)) (fs w) ++ map row_line rows.
Proof. intros (_ & Hf & _). rewrite Hf. apply file_append_lines. Qed.

(** Dispatching one event: only the sampler writes, and it writes one row. *)
Lemma Invoke_wrote ev q w :
  wrote w (Invoke (ev_impl ev) (set_Now (ev_ts ev) (set_events q w)))
    (match ev_impl ev with
     | EvCheckThroughput => [sampled (ev_ts ev) w]
     | _ => []
     end).
Proof.
  destruct (ev_impl ev) as [| |socket]; simpl.
  - apply wrote_refl; reflexivity.
  - repeat split. repeat constructor.
  - unfold ReceivePacket.
    destruct (ReceivePacket_loop_frame socket (rx_queue socket)
                (set_Now (ev_ts ev) (set_events q w))) as (Hc & Hf & _).
    apply wrote_refl; [exact Hc | exact Hf].
Qed.

Lemma Simulator_Run_finished fuel w :
  IsFinished w = true -> Simulator_Run fuel w = w.
Proof. intros H. destruct fuel; simpl; [|rewrite H]; reflexivity. Qed.

(** Whatever the fuel, a run only appends sample rows to the output file. *)
Lemma Simulator_Run_wrote fuel : forall w,
  exists rows, wrote w (Simulator_Run fuel w) rows.
Proof.
  induction fuel as [|n IH]; intros w.
  - exists []. apply wrote_refl; reflexivity.
  - simpl. destruct (IsFinished w) eqn:Hfin.
    + exists []. apply wrote_refl; reflexivity.
    + unfold ProcessOneEvent. unfold IsFinished in Hfin.
      destruct (events w) as [|ev q] eqn:Hq; [discriminate Hfin|].
      destruct (IH (Invoke (ev_impl ev) (set_Now (ev_ts ev) (set_events q w))))
        as [rows Hrows].
      eexists. eapply wrote_trans; [apply Invoke_wrote | exact Hrows].
Qed.

(** ** The sampler under the scheduler *)

Lemma at_second_S j : (at_second j + Seconds 1)%Q = at_second (S j).
Proof.
  unfold at_second, Seconds, Qplus, inject_Z. cbn [Qnum Qden].
  rewrite Nat2Z.inj_succ. f_equal. lia.
Qed.

Lemma at_second_lt j k : (j < k)%nat -> (at_second j < at_second k)%Q.
Proof. intros H. unfold at_second, Qlt, inject_Z. cbn [Qnum Qden]. lia. Qed.

Lemma own_Forall (P : Event -> Prop) q :
  Forall P (own q) -> Forall (fun x => is_own x = true -> P x) q.
Proof.
  induction q as [|x q IH]; simpl; intros H; [constructor|].
  destruct (is_own x) eqn:Ex.
  - inversion H; subst. constructor; auto.
  - constructor; [congruence | auto].
Qed.

Lemma own_In x q : In x (own q) -> In x q.
Proof. unfold own. intros H. apply List.filter_In in H. tauto. Qed.

Lemma own_at_Insert j q :
  (1 <= j < 103)%nat -> sorted q -> own q = [STOP] ->
  own (Insert (CT (S j)) q) = own_at (S j).
Proof.
  intros Hj Hs Hq. unfold own_at. destruct (S j <? 103)%nat eqn:E.
  - apply Nat.ltb_lt in E.
    rewrite own_Insert_front, Hq; [reflexivity | reflexivity |].
    apply own_Forall. rewrite Hq. repeat constructor.
    apply (at_second_lt (S j) 103). exact E.
  - apply Nat.ltb_ge in E. assert (S j = 103)%nat as -> by lia.
    rewrite own_Insert_back, Hq; [reflexivity | reflexivity | exact Hs |].
    apply own_Forall. rewrite Hq. repeat constructor.
    apply Qle_refl.
Qed.

(** With enough fuel the run fires the sampler at every second from [j] to
    102 and then halts on the stop event, the firing for second 103 still
    in the queue. *)
Lemma Simulator_Run_samples fuel : forall w j,
  (1 <= j <= 103)%nat ->
  m_stop w = false -> sorted (events w) -> own (events w) = own_at j ->
  (length (events w) + (103 - j) <= fuel)%nat ->
  exists rows,
    wrote w (Simulator_Run fuel w) rows /\
    map timestamp rows = map at_second (seq j (103 - j)) /\
    m_stop (Simulator_Run fuel w) = true /\
    In (CT 103) (events (Simulator_Run fuel w)).
Proof.
  induction fuel as [|n IH]; intros w j Hj Hstop Hsorted Hown Hfuel.
  - destruct (events w); [|simpl in Hfuel; lia].
    unfold own_at in Hown. destruct (j <? 103)%nat; discriminate Hown.
  - destruct (events w) as [|ev q] eqn:Hq.
    { unfold own_at in Hown. destruct (j <? 103)%nat; discriminate Hown. }
    cbn [Simulator_Run]. unfold IsFinished, ProcessOneEvent.
    rewrite Hq, Hstop.
    pose proof (Invoke_wrote ev q w) as Hstep.
    set (w1 := Invoke (ev_impl ev) (set_Now (ev_ts ev) (set_events q w))) in *.
    cbn [length] in Hfuel. apply sorted_tail in Hsorted as Hsq.
    unfold own in Hown. cbn [List.filter] in Hown. fold (own q) in Hown.
    destruct (is_own ev) eqn:Eown.
    + unfold own_at in Hown. destruct (j <? 103)%nat eqn:Ej.
      * apply Nat.ltb_lt in Ej.
        injection Hown as Hev Hoq. subst ev. cbn [CT ev_impl ev_ts] in *.
        assert (Hev1 : events w1 = Insert (CT (S j)) q).
        { subst w1. cbn [Invoke]. rewrite CheckThroughput_events.
          cbn [Now set_Now events set_events]. rewrite at_second_S. reflexivity. }
        destruct (IH w1 (S j)) as (rows & Hw & Hts & Hst & Hin).
        -- lia.
        -- subst w1. exact Hstop.
        -- rewrite Hev1. apply Insert_sorted, Hsq.
        -- rewrite Hev1. apply own_at_Insert; [lia | exact Hsq | exact Hoq].
        -- rewrite Hev1, Insert_length. lia.
        -- exists (sampled (at_second j) w :: rows).
           split; [|split; [|split]].
           ++ apply (wrote_trans w w1 _ [_] rows Hstep Hw).
           ++ cbn [map]. rewrite Hts.
              replace (103 - j)%nat with (S (103 - S j)) by lia. reflexivity.
           ++ exact Hst.
           ++ exact Hin.
      * apply Nat.ltb_ge in Ej. assert (j = 103)%nat by lia. subst j.
        injection Hown as Hev Hoq. subst ev. cbn [STOP ev_impl ev_ts] in *.
        rewrite Simulator_Run_finished.
        2:{ subst w1. unfold IsFinished. cbn. destruct q; reflexivity. }
        exists []. split; [|split; [|split]].
        -- exact Hstep.
        -- reflexivity.
        -- reflexivity.
        -- subst w1. cbn. apply own_In. rewrite Hoq. left. reflexivity.
    + assert (Hev1 : events w1 = q /\ m_stop w1 = false).
      { subst w1. unfold is_own in Eown.
        destruct (ev_impl ev) as [| |socket]; try discriminate Eown.
        cbn [Invoke]. unfold ReceivePacket.
        destruct (ReceivePacket_loop_frame socket (rx_queue socket)
                    (set_Now (ev_ts ev) (set_events q w))) as (_ & _ & He & Hs & _).
        rewrite He, Hs. split; [reflexivity | exact Hstop]. }
      destruct Hev1 as [Hev1 Hst1].
      destruct (IH w1 j) as (rows & Hw & Hts & Hst & Hin);
        try rewrite Hev1; try assumption; [lia|].
      exists rows. split; [|split; [|split]]; try assumption.
      unfold is_own in Eown.
      destruct (ev_impl ev) as [| |socket]; try discriminate Eown.
      apply (wrote_trans w w1 _ [] rows Hstep Hw).
Qed.

(** ** The traffic plan *)

Lemma Get_all_Nodes i :
  0 <= i < 30 -> Get Run_all_Nodes i = Some (Z.to_nat i).
Proof.
  intros Hi. unfold Get. destruct (i <? 0) eqn:E; [lia|].
  change Run_all_Nodes with (seq 0 30).
  rewrite lookup_seq_lt by lia. reflexivity.
Qed.

Lemma lookup_map {A B} (f : A -> B) (l : list A) (k : nat) :
  map f l !! k = option_map f (l !! k).
Proof.
  revert k. induction l as [|x l IH]; intros [|k]; simpl; auto.
Qed.

Lemma Get_adhocInterfaces i :
  0 <= i < 30 ->
  Get Run_adhocInterfaces i = Some (167837952 + 1 + N.of_nat (Z.to_nat i))%N.
Proof.
  intros Hi. unfold Get. destruct (i <? 0) eqn:E; [lia|].
  change Run_adhocInterfaces
    with (map (fun k => (167837952 + 1 + N.of_nat k)%N) (seq 0 30)).
  rewrite lookup_map, lookup_seq_lt by lia. reflexivity.
Qed.

(** The loop is defined, and installs one flow per index, as long as the
    source indices stay within the thirty nodes. *)
Lemma InstallFlows_flow_of nSinks TT prt rng : forall n i,
  nSinks <= 15 -> 0 <= i -> Z.of_nat n + i <= Z.max nSinks 0 ->
  InstallFlows n i nSinks TT prt rng Run_all_Nodes Run_adhocInterfaces =
  Some (map (flow_of nSinks TT prt rng) (seq (Z.to_nat i) n)).
Proof.
  induction n as [|n IH]; intros i Hn Hi Hle; [reflexivity|].
  cbn [InstallFlows].
  rewrite Get_adhocInterfaces, !Get_all_Nodes by lia.
  rewrite IH by lia.
  cbn [seq map]. unfold flow_of at 2.
  replace (Z.to_nat (i + nSinks)) with (Z.to_nat i + Z.to_nat nSinks)%nat by lia.
  replace (Z.to_nat (i + 1)) with (S (Z.to_nat i)) by lia.
  reflexivity.
Qed.

(** ** [Run], up to the event loop *)

Lemma Schedule_frame d impl w :
  this (Schedule d impl w) = this w /\ Now (Schedule d impl w) = Now w /\
  fs (Schedule d impl w) = fs w /\ m_stop (Schedule d impl w) = m_stop w /\
  routing (Schedule d impl w) = routing w /\ flows (Schedule d impl w) = flows w.
Proof. repeat split. Qed.

Lemma Network_events_spec net : forall w,
  let w' := Network_events net w in
  this w' = this w /\ Now w' = Now w /\ fs w' = fs w /\ m_stop w' = m_stop w /\
  routing w' = routing w /\ flows w' = flows w /\
  length (events w') = (length net + length (events w))%nat /\
  (sorted (events w) -> sorted (events w')) /\
  own (events w') = own (events w).
Proof.
  unfold Network_events.
  induction net as [|[d s] net IH]; intros w; cbn [fold_left].
  - repeat split. auto.
  - destruct (IH (Schedule (fst (d, s)) (EvReceive (snd (d, s))) w))
      as (H1 & H2 & H3 & H4 & H5 & H6 & H7 & H8 & H9).
    cbv zeta. rewrite H1, H2, H3, H4, H5, H6, H7, H9.
    cbn [Schedule events set_events]. rewrite Insert_length.
    repeat split; [cbn [length]; lia | |].
    + intros Hs. apply H8. cbn [Schedule events set_events].
      apply Insert_sorted, Hs.
    + apply own_Insert_net. reflexivity.
Qed.

(** [Run] reaches [Simulator::Run] whenever the node indices are in range;
    by then the first row is written, the sampler is armed for second 1 and
    the stop event is due at 103. *)
Lemma Run_reaches_loop e fs0 nSinks txp name rng net fuel :
  nSinks <= 15 ->
  exists w0,
    Run nSinks txp name rng net fuel (World_of e fs0) = Some (Simulator_Run fuel w0) /\
    config w0 = Run_config e nSinks txp name rng /\
    fs w0 = append_lines name [row_line (first_row e nSinks txp)] fs0 /\
    m_stop w0 = false /\ sorted (events w0) /\ own (events w0) = own_at 1 /\
    length (events w0) = (length net + 2)%nat.
Proof.
  intros Hn. unfold Run.
  cbn [this set_this port set_m_protocolName set_m_CSVfileName set_m_txp
       set_m_nSinks set_routing World_of].
  rewrite InstallFlows_flow_of by lia.
  eexists. split; [reflexivity|].
  match goal with |- context [Network_events net ?w] =>
    destruct (Network_events_spec net w) as (H1 & H2 & H3 & H4 & H5 & H6 & H7 & H8 & H9);
    set (wn := Network_events net w) in * end.
  cbn [this Now fs m_stop routing flows events length
       set_flows set_routing set_this World_of] in H1, H2, H3, H4, H5, H6, H7, H8, H9.
  assert (Hsn : sorted (events wn)) by (apply H8; constructor).
  unfold Simulator_Stop.
  cbn [Schedule events set_events Now].
  destruct (CheckThroughput_frame wn) as (Hc & Hs & Hnow & _).
  rewrite Hnow, H2. rewrite CheckThroughput_events, H2.
  change (0 + Seconds 1)%Q with (ev_ts (CT 1)).
  change (0 + Seconds TotalTime)%Q with (ev_ts STOP).
  change {| ev_ts := ev_ts (CT 1); ev_impl := EvCheckThroughput |} with (CT 1).
  change {| ev_ts := ev_ts STOP; ev_impl := EvStop |} with STOP.
  assert (Hown1 : own (Insert (CT 1) (events wn)) = [CT 1]).
  { rewrite own_Insert_front, H9; [reflexivity | reflexivity |].
    apply own_Forall. rewrite H9. constructor. }
  split; [|split; [|split; [|split; [|split]]]].
  - transitivity (config (CheckThroughput wn)); [reflexivity|].
    rewrite Hc. unfold config. rewrite H1, H5, H6. reflexivity.
  - transitivity (fs (CheckThroughput wn)); [reflexivity|].
    rewrite CheckThroughput_fs. unfold sampled. rewrite H1, H2, H3. reflexivity.
  - transitivity (m_stop (CheckThroughput wn)); [reflexivity|].
    rewrite Hs, H4. reflexivity.
  - cbn [events set_events]. apply Insert_sorted, Insert_sorted, Hsn.
  - cbn [events set_events].
    rewrite own_Insert_back, Hown1; [reflexivity | reflexivity | |].
    + apply Insert_sorted, Hsn.
    + apply own_Forall. rewrite Hown1. repeat constructor. discriminate.
  - cbn [events set_events]. rewrite !Insert_length, H7. lia.
Qed.

(** ** [Run] and [main], as a whole *)

Lemma Run_config_row_ok e nSinks txp name rng w0 r :
  config w0 = Run_config e nSinks txp name rng ->
  row_ok w0 r -> row_static nSinks txp r.
Proof.
  unfold config, Run_config, row_ok, row_static.
  intros Hc (H1 & H2 & H3). repeat split; congruence.
Qed.

(** Whatever the fuel: the output file grows by the first row and further
    rows, all with the sink count, label and power [Run] has set. *)
Lemma Run_partial e fs0 nSinks txp name rng net fuel :
  nSinks <= 15 ->
  exists w rows,
    Run nSinks txp name rng net fuel (World_of e fs0) = Some w /\
    config w = Run_config e nSinks txp name rng /\
    fs w = append_lines name (map row_line (first_row e nSinks txp :: rows)) fs0 /\
    Forall (row_static nSinks txp) rows.
Proof.
  intros Hn.
  destruct (Run_reaches_loop e fs0 nSinks txp name rng net fuel Hn)
    as (w0 & HRun & Hc & Hf & _).
  destruct (Simulator_Run_wrote fuel w0) as (rows & Hc' & Hf' & Hrows).
  exists (Simulator_Run fuel w0), rows. split; [exact HRun|].
  split; [congruence|]. split.
  - rewrite Hf', Hf.
    replace (m_CSVfileName (this w0)) with name
      by (unfold config, Run_config in Hc; congruence).
    change (map row_line (first_row e nSinks txp :: rows))
      with ([row_line (first_row e nSinks txp)] ++ map row_line rows).
    rewrite append_lines_app. reflexivity.
  - eapply Forall_impl; [exact Hrows|].
    intros r. apply (Run_config_row_ok e nSinks txp name rng w0 r Hc).
Qed.

(** With enough fuel: the rows are those of seconds 0 to 102, and the run
    halts on the stop event with the firing for second 103 still queued. *)
Lemma Run_complete e fs0 nSinks txp name rng net fuel :
  nSinks <= 15 -> (length net + 104 <= fuel)%nat ->
  exists w rows,
    Run nSinks txp name rng net fuel (World_of e fs0) = Some w /\
    config w = Run_config e nSinks txp name rng /\
    fs w = append_lines name (map row_line (first_row e nSinks txp :: rows)) fs0 /\
    Forall (row_static nSinks txp) rows /\
    map timestamp rows = map at_second (seq 1 102) /\
    m_stop w = true /\ In (CT 103) (events w).
Proof.
  intros Hn Hfuel.
  destruct (Run_reaches_loop e fs0 nSinks txp name rng net fuel Hn)
    as (w0 & HRun & Hc & Hf & Hs & Hsort & Hown & Hlen).
  destruct (Simulator_Run_samples fuel w0 1) as (rows & (Hc' & Hf' & Hrows) & Hts & Hst & Hin);
    [lia | exact Hs | exact Hsort | exact Hown | lia |].
  exists (Simulator_Run fuel w0), rows. split; [exact HRun|].
  split; [congruence|]. split; [|split; [|split; [|split]]].
  - rewrite Hf', Hf.
    replace (m_CSVfileName (this w0)) with name
      by (unfold config, Run_config in Hc; congruence).
    change (map row_line (first_row e nSinks txp :: rows))
      with ([row_line (first_row e nSinks txp)] ++ map row_line rows).
    rewrite append_lines_app. reflexivity.
  - eapply Forall_impl; [exact Hrows|].
    intros r. apply (Run_config_row_ok e nSinks txp name rng w0 r Hc).
  - exact Hts.
  - exact Hst.
  - exact Hin.
Qed.

Lemma main_unfold cmd junk_nSinks junk_txp fs0 rng net fuel :
  main cmd junk_nSinks junk_txp fs0 rng net fuel =
  Run 15 7.5 (csv_name cmd) rng net fuel
    (World_of (experiment_of cmd junk_nSinks junk_txp)
       (ofstream_trunc (csv_name cmd) [header] fs0)).
Proof.
  destruct cmd as [[name|] [trace|]]; reflexivity.
Qed.

Lemma experiment_of_counters cmd junk_nSinks junk_txp :
  bytesTotal (experiment_of cmd junk_nSinks junk_txp) = 0%N /\
  packetsReceived (experiment_of cmd junk_nSinks junk_txp) = 0%N.
Proof. destruct cmd as [[name|] [trace|]]; split; reflexivity. Qed.

Lemma file_main_rows cmd fs0 rows :
  file (csv_name cmd)
    (append_lines (csv_name cmd) rows (ofstream_trunc (csv_name cmd) [header] fs0)) =
  header :: rows.
Proof. rewrite file_append_lines, file_ofstream_trunc. reflexivity. Qed.

(** ** Text of the lines *)

Lemma has_digit_app s1 s2 :
  has_digit (s1 +:+ s2) = has_digit s1 || has_digit s2.
Proof.
  induction s1 as [|c s1 IH]; simpl; [reflexivity|].
  change (String.append s1 s2) with (s1 +:+ s2).
  rewrite IH, orb_assoc. reflexivity.
Qed.

Lemma has_digit_show_uint n : has_digit (show_uint n) = true.
Proof.
  unfold show_uint. destruct (N.to_uint n); reflexivity.
Qed.

Lemma row_text_has_digit show_double r :
  has_digit (line_text show_double (row_line r)) = true.
Proof.
  unfold row_line. cbn [line_text token_text].
  rewrite !has_digit_app, has_digit_show_uint.
  rewrite !orb_true_r. reflexivity.
Qed.

Lemma row_text_not_header show_double r :
  line_text show_double (row_line r) <> header_text.
Proof.
  intros H. pose proof (row_text_has_digit show_double r) as Hd.
  rewrite H in Hd. discriminate Hd.
Qed.

(** * The claims *)

(** ** Timestamps of the samples (C1, C10) *)

(** C1, as the spec states it, fails: the first sample is not taken one
    interval after the start.  In the default run (no option, no reception)
    the first data row of the file carries time 0, not [Seconds 1]: [Run]
    calls [CheckThroughput] itself before it starts the scheduler. *)
Lemma first_sample_not_at_interval :
  exists w r rest,
    main no_args 0 0 ∅ half [] 104 = Some w /\
    file "AODV-simulation.csv" (fs w) = header :: row_line r :: rest /\
    ~ (timestamp r == Seconds 1)%Q.
Proof.
  destruct (main no_args 0 0 ∅ half [] 104) as [w|] eqn:E;
    [|vm_compute in E; discriminate E].
  exists w, (first_row (RoutingExperiment_new 0 0) 15 7.5).
  eexists. split; [reflexivity|]. split.
  - vm_compute in E. injection E as <-. vm_compute. reflexivity.
  - vm_compute. discriminate.
Qed.

(** C1, amended: in every complete run the timestamps of the rows are
    0, 1, 2, ..., 102, in this order: a strictly increasing arithmetic
    sequence with common difference one second that starts at 0 (the call
    from [Run]) and goes on while below the total duration of 103 s, where
    the run halts on the stop event.  This holds for every command line,
    every earlier content of the file system and every reception. *)
Theorem sample_timestamps cmd junk_nSinks junk_txp fs0 rng net fuel :
  (length net + 104 <= fuel)%nat ->
  exists w rows,
    main cmd junk_nSinks junk_txp fs0 rng net fuel = Some w /\
    m_stop w = true /\
    file (csv_name cmd) (fs w) = header :: map row_line rows /\
    map timestamp rows = map at_second (seq 0 103).
Proof.
  intros Hfuel. rewrite main_unfold.
  destruct (Run_complete (experiment_of cmd junk_nSinks junk_txp)
              (ofstream_trunc (csv_name cmd) [header] fs0)
              15 7.5 (csv_name cmd) rng net fuel)
    as (w & rows & HRun & _ & Hf & _ & Hts & Hst & _); [lia | exact Hfuel |].
  exists w, (first_row (experiment_of cmd junk_nSinks junk_txp) 15 7.5 :: rows).
  split; [exact HRun|]. split; [exact Hst|]. split.
  - rewrite Hf. apply file_main_rows.
  - cbn [map]. rewrite Hts. reflexivity.
Qed.

Lemma sample_timestamps_witness :
  (length (@nil (Time * Socket)) + 104 <= 104)%nat /\
  exists w rows,
    main no_args 0 0 ∅ half [] 104 = Some w /\
    m_stop w = true /\
    file (csv_name no_args) (fs w) = header :: map row_line rows /\
    map timestamp rows = map at_second (seq 0 103).
Proof.
  split; [simpl; lia|].
  apply (sample_timestamps no_args 0 0 ∅ half [] 104). simpl. lia.
Defined.

(** C10: the first firing of the sampler is the call from [Run], before the
    scheduler dispatches anything.  So in every run, whatever the
    receptions and however far the event loop gets (any fuel, also none),
    the first data row has timestamp 0, rate 0 and packet count 0. *)
Theorem first_row_is_zero cmd junk_nSinks junk_txp fs0 rng net fuel :
  exists w r rest,
    main cmd junk_nSinks junk_txp fs0 rng net fuel = Some w /\
    file (csv_name cmd) (fs w) = header :: row_line r :: rest /\
    timestamp r = 0%Q /\ (rateKbps r == 0)%Q /\ packetCount r = 0%N.
Proof.
  rewrite main_unfold.
  destruct (Run_partial (experiment_of cmd junk_nSinks junk_txp)
              (ofstream_trunc (csv_name cmd) [header] fs0)
              15 7.5 (csv_name cmd) rng net fuel)
    as (w & rows & HRun & _ & Hf & _); [lia|].
  destruct (experiment_of_counters cmd junk_nSinks junk_txp) as [Hb Hp].
  exists w, (first_row (experiment_of cmd junk_nSinks junk_txp) 15 7.5),
    (map row_line rows).
  split; [exact HRun|]. split; [|split; [|split]].
  - rewrite Hf. apply file_main_rows.
  - reflexivity.
  - cbn [rateKbps first_row]. rewrite Hb. reflexivity.
  - cbn [packetCount first_row]. exact Hp.
Qed.

(** ** The protocol label (C9) *)

(** C9: the selector field starts at 2, and whatever value [p] it holds when
    [Run] is called, every row [Run] appends carries the label "AODV". *)
Theorem every_row_labelled_AODV e p fs0 nSinks txp name rng net fuel :
  nSinks <= 15 ->
  (forall junk_nSinks junk_txp,
     m_protocol (RoutingExperiment_new junk_nSinks junk_txp) = 2%N) /\
  exists w rows,
    Run nSinks txp name rng net fuel (World_of (set_m_protocol p e) fs0) = Some w /\
    fs w = append_lines name (map row_line rows) fs0 /\
    Forall (fun r => protocolLabel r = "AODV"%string) rows.
Proof.
  intros Hn. split; [reflexivity|].
  destruct (Run_partial (set_m_protocol p e) fs0 nSinks txp name rng net fuel Hn)
    as (w & rows & HRun & _ & Hf & Hrows).
  exists w, (first_row (set_m_protocol p e) nSinks txp :: rows).
  split; [exact HRun|]. split; [exact Hf|].
  constructor; [reflexivity|].
  eapply Forall_impl; [exact Hrows|]. intros r (_ & Hl & _). exact Hl.
Qed.

Lemma every_row_labelled_AODV_witness :
  15 <= 15 /\
  exists w rows,
    Run 15 7.5 "out.csv" half [] 10
      (World_of (set_m_protocol 3 (RoutingExperiment_new 0 0)) ∅) = Some w /\
    fs w = append_lines "out.csv" (map row_line rows) ∅ /\
    Forall (fun r => protocolLabel r = "AODV"%string) rows.
Proof.
  split; [lia|].
  apply (every_row_labelled_AODV (RoutingExperiment_new 0 0) 3 ∅ 15 7.5
           "out.csv" half [] 10).
  lia.
Defined.

(** ** The header (C7) *)

Lemma header_count show_double rows :
  count_occ string_dec
    (map (line_text show_double) (header :: map row_line rows)) header_text = 1%nat.
Proof.
  cbn [map count_occ].
  destruct (string_dec (line_text show_double header) header_text) as [_|Hne];
    [|exfalso; apply Hne; reflexivity].
  f_equal. apply count_occ_not_In. intros Hin.
  apply in_map_iff in Hin. destruct Hin as (x & Hx & Hin).
  apply in_map_iff in Hin. destruct Hin as (r & <- & _).
  exact (row_text_not_header show_double r Hx).
Qed.

(** C7: the first half of [main] leaves the output file with the header as
    its only line, whatever the file held before, and the text of that line
    is the fixed column list.  Whatever rows are appended after it, and
    however many, exactly one line of the file reads as the header; so it is
    after the run of [main], however far it gets.  This holds however the
    C++ library prints a [double]. *)
Theorem header_written_once show_double cmd junk_nSinks junk_txp fs0 rng net fuel :
  line_text show_double header = header_text /\
  (let '(w0, name) := main_header cmd (World_new junk_nSinks junk_txp fs0) in
   name = csv_name cmd /\ file name (fs w0) = [header]) /\
  (forall rows,
     let f := append_lines (csv_name cmd) (map row_line rows)
                (ofstream_trunc (csv_name cmd) [header] fs0) in
     count_occ string_dec
       (map (line_text show_double) (file (csv_name cmd) f)) header_text = 1%nat) /\
  exists w rows,
    main cmd junk_nSinks junk_txp fs0 rng net fuel = Some w /\
    file (csv_name cmd) (fs w) = header :: map row_line rows /\
    count_occ string_dec
      (map (line_text show_double) (file (csv_name cmd) (fs w))) header_text = 1%nat.
Proof.
  split; [reflexivity|]. split.
  { destruct cmd as [[name|] [trace|]]; cbn; split; try reflexivity;
      apply file_ofstream_trunc. }
  split.
  { intros rows. cbv zeta. rewrite file_main_rows. apply header_count. }
  rewrite main_unfold.
  destruct (Run_partial (experiment_of cmd junk_nSinks junk_txp)
              (ofstream_trunc (csv_name cmd) [header] fs0)
              15 7.5 (csv_name cmd) rng net fuel)
    as (w & rows & HRun & _ & Hf & _); [lia|].
  exists w, (first_row (experiment_of cmd junk_nSinks junk_txp) 15 7.5 :: rows).
  split; [exact HRun|].
  assert (Hfile : file (csv_name cmd) (fs w) =
                  header :: map row_line
                    (first_row (experiment_of cmd junk_nSinks junk_txp) 15 7.5 :: rows)).
  { rewrite Hf. apply file_main_rows. }
  split; [exact Hfile|]. rewrite Hfile. apply header_count.
Qed.

(** ** The protocol selector (C2) *)

Section Selector.
Variable ns3_option : string -> string -> Handled.
Variable parse_string : string -> option string.
Variable parse_bool : bool -> string -> option bool.

Lemma Parse_unregistered trace0 name :
  name <> "CSVfileName"%string -> name <> "traceMobility"%string ->
  (forall v, ns3_option name v = Exits 1) ->
  forall args cmd v,
    In (name, v) args ->
    exists status,
      Parse ns3_option parse_string parse_bool trace0 args cmd = inr status.
Proof.
  intros Hcsv Htrace Hexit.
  induction args as [|[n value] args IH]; intros cmd v Hin; [destruct Hin|].
  cbn [Parse].
  destruct (String.eqb n "CSVfileName") eqn:E1.
  { apply String.eqb_eq in E1. destruct Hin as [Heq|Hin]; [congruence|].
    destruct (parse_string value); [apply (IH _ v Hin) | exists 1; reflexivity]. }
  destruct (String.eqb n "traceMobility") eqn:E2.
  { apply String.eqb_eq in E2. destruct Hin as [Heq|Hin]; [congruence|].
    destruct (parse_bool _ value); [apply (IH _ v Hin) | exists 1; reflexivity]. }
  destruct Hin as [Heq|Hin].
  - injection Heq as -> ->. rewrite Hexit. exists 1. reflexivity.
  - destruct (ns3_option n value) as [|status];
      [apply (IH _ v Hin) | exists status; reflexivity].
Qed.

Lemma main_installs_AODV cmd junk_nSinks junk_txp fs0 rng net fuel :
  exists w,
    main cmd junk_nSinks junk_txp fs0 rng net fuel = Some w /\
    m_protocol (this w) = 2%N /\
    routing w = [(Ipv4StaticRoutingHelper, 0); (AodvHelper, 60)] /\
    m_protocolName (this w) = "AODV"%string.
Proof.
  rewrite main_unfold.
  destruct (Run_partial (experiment_of cmd junk_nSinks junk_txp)
              (ofstream_trunc (csv_name cmd) [header] fs0)
              15 7.5 (csv_name cmd) rng net fuel)
    as (w & rows & HRun & Hc & _); [lia|].
  exists w. split; [exact HRun|].
  assert (Hp : m_protocol (experiment_of cmd junk_nSinks junk_txp) = 2%N).
  { destruct cmd as [[name|] [trace|]]; reflexivity. }
  unfold config, Run_config in Hc. repeat split; congruence.
Qed.

(** C2, amended: set-up takes no protocol selector.  The option is not
    registered (and ns-3 has no option of its own called "protocol"), so
    a command line that carries it, whatever its value, ends in an exit
    before the output file is opened: the file system is as it was.  With
    the option alone the exit is that for an invalid argument, status 1.
    A run that gets past the parser always has the selector at 2, installs
    static routing and AODV and sets the label "AODV"; it never reaches
    the undefined access of [Run]; and without any option the run goes
    through. *)
Theorem selector_is_refused args junk_nSinks junk_txp fs0 rng net fuel :
  (forall v, ns3_option "protocol" v = Exits 1) ->
  (forall v, In ("protocol"%string, v) args ->
     exists status,
       main_argv ns3_option parse_string parse_bool args
         junk_nSinks junk_txp fs0 rng net fuel =
       Exited status fs0) /\
  (forall v,
     main_argv ns3_option parse_string parse_bool [("protocol"%string, v)]
       junk_nSinks junk_txp fs0 rng net fuel = Exited 1 fs0) /\
  (forall w,
     main_argv ns3_option parse_string parse_bool args
         junk_nSinks junk_txp fs0 rng net fuel =
     Ran w ->
     m_protocol (this w) = 2%N /\
     routing w = [(Ipv4StaticRoutingHelper, 0); (AodvHelper, 60)] /\
     m_protocolName (this w) = "AODV"%string) /\
  main_argv ns3_option parse_string parse_bool args
         junk_nSinks junk_txp fs0 rng net fuel <>
    Undefined /\
  exists w0,
    main_argv ns3_option parse_string parse_bool []
      junk_nSinks junk_txp fs0 rng net fuel = Ran w0.
Proof.
  intros Hexit. split; [|split; [|split; [|split]]].
  - intros v Hin. unfold main_argv.
    destruct (Parse_unregistered
                (m_traceMobility (RoutingExperiment_new junk_nSinks junk_txp))
                "protocol" ltac:(discriminate) ltac:(discriminate) Hexit
                args no_args v Hin) as (status & ->).
    exists status. reflexivity.
  - intros v. unfold main_argv. cbn. rewrite Hexit. reflexivity.
  - intros w. unfold main_argv.
    destruct (Parse ns3_option parse_string parse_bool _ args no_args) as [cmd|status];
      [|discriminate].
    destruct (main_installs_AODV cmd junk_nSinks junk_txp fs0 rng net fuel)
      as (w1 & -> & H1 & H2 & H3).
    intros Heq. injection Heq as <-. repeat split; assumption.
  - unfold main_argv.
    destruct (Parse ns3_option parse_string parse_bool _ args no_args) as [cmd|status];
      [|discriminate].
    destruct (main_installs_AODV cmd junk_nSinks junk_txp fs0 rng net fuel)
      as (w1 & -> & _). discriminate.
  - unfold main_argv. cbn [Parse].
    destruct (main_installs_AODV no_args junk_nSinks junk_txp fs0 rng net fuel)
      as (w1 & -> & _). exists w1. reflexivity.
Qed.
End Selector.

(** C2, as the spec states it, fails: a selector is not mapped to a protocol.
    The command line [--protocol=3], the value documented for DSDV, installs
    nothing: the option is not registered, the parser reports an invalid
    argument and the program exits with status 1 before the output file is
    opened.  Without the option the run goes through, with AODV. *)
Lemma supported_selector_is_refused :
  main_argv only_registered plain_string plain_bool [("protocol"%string, "3"%string)]
    0 0 ∅ half [] 104 = Exited 1 ∅ /\
  exists w,
    main_argv only_registered plain_string plain_bool [] 0 0 ∅ half [] 104 = Ran w /\
    routing w = [(Ipv4StaticRoutingHelper, 0); (AodvHelper, 60)].
Proof.
  split; [reflexivity|].
  eexists. split; [vm_compute; reflexivity|]. reflexivity.
Qed.

Lemma selector_is_refused_witness :
  (forall v, only_registered "protocol" v = Exits 1) /\
  (forall v, In ("protocol"%string, v) [("CSVfileName"%string, "out.csv"%string);
                                        ("protocol"%string, "7"%string)] ->
     exists status,
       main_argv only_registered plain_string plain_bool
         [("CSVfileName"%string, "out.csv"%string); ("protocol"%string, "7"%string)]
         0 0 ∅ half [] 10 = Exited status ∅) /\
  (forall v,
     main_argv only_registered plain_string plain_bool [("protocol"%string, v)]
       0 0 ∅ half [] 10 = Exited 1 ∅) /\
  (forall w,
     main_argv only_registered plain_string plain_bool
       [("CSVfileName"%string, "out.csv"%string); ("protocol"%string, "7"%string)]
       0 0 ∅ half [] 10 = Ran w ->
     m_protocol (this w) = 2%N /\
     routing w = [(Ipv4StaticRoutingHelper, 0); (AodvHelper, 60)] /\
     m_protocolName (this w) = "AODV"%string) /\
  main_argv only_registered plain_string plain_bool
    [("CSVfileName"%string, "out.csv"%string); ("protocol"%string, "7"%string)]
    0 0 ∅ half [] 10 <> Undefined /\
  exists w0, main_argv only_registered plain_string plain_bool [] 0 0 ∅ half [] 10 = Ran w0.
Proof.
  assert (H : forall v, only_registered "protocol" v = Exits 1)
    by (intros v; reflexivity).
  split; [exact H|].
  apply (selector_is_refused only_registered plain_string plain_bool
           [("CSVfileName"%string, "out.csv"%string); ("protocol"%string, "7"%string)]
           0 0 ∅ half [] 10 H).
Defined.

(** ** The sampler re-arms itself (C6) *)

Lemma Insert_armed t q :
  armed (Insert {| ev_ts := t; ev_impl := EvCheckThroughput |} q).
Proof.
  unfold armed. apply List.Exists_exists.
  eexists. split; [apply Insert_In | reflexivity].
Qed.

(** One step of the loop when no stop is scheduled: the loop goes on, no
    stop gets scheduled, and the sampler stays armed. *)
Lemma running_step w :
  m_stop w = false -> no_stop_scheduled (events w) -> armed (events w) ->
  m_stop (ProcessOneEvent w) = false /\
  no_stop_scheduled (events (ProcessOneEvent w)) /\
  armed (events (ProcessOneEvent w)).
Proof.
  intros Hs Hns Harm. unfold ProcessOneEvent.
  destruct (events w) as [|ev q]; [inversion Harm|].
  inversion Hns as [|? ? Hev Hq]; subst.
  destruct (ev_impl ev) as [| |socket] eqn:Eimpl; cbn [Invoke].
  - congruence.
  - rewrite CheckThroughput_events. split; [exact Hs|]. split.
    + apply Insert_Forall; [discriminate | exact Hq].
    + apply Insert_armed.
  - unfold ReceivePacket.
    destruct (ReceivePacket_loop_frame socket (rx_queue socket)
                (set_Now (ev_ts ev) (set_events q w))) as (_ & _ & He & Hst & _).
    rewrite He, Hst. split; [exact Hs|]. split; [exact Hq|].
    inversion Harm as [? ? Hhd|? ? Htl]; subst; [congruence | exact Htl].
Qed.

Lemma running_forever fuel : forall w,
  m_stop w = false -> no_stop_scheduled (events w) -> armed (events w) ->
  IsFinished (Simulator_Run fuel w) = false /\
  armed (events (Simulator_Run fuel w)).
Proof.
  assert (Hrun : forall w, m_stop w = false -> armed (events w) ->
                           IsFinished w = false).
  { intros w Hs Harm. unfold IsFinished.
    destruct (events w); [inversion Harm | exact Hs]. }
  induction fuel as [|n IH]; intros w Hs Hns Harm; cbn [Simulator_Run].
  - split; [apply Hrun; assumption | exact Harm].
  - rewrite (Hrun w Hs Harm).
    destruct (running_step w Hs Hns Harm) as (Hs' & Hns' & Harm').
    apply IH; assumption.
Qed.

(** C6: a firing always schedules the next one at the current time plus one
    second and never touches the stop flag.  It has no end of its own: when
    no stop is scheduled, the event loop is still running, with the sampler
    armed, after any number of iterations.  In the run of [main] the loop
    ends on the stop event at 103 s, and the sampler is still armed then. *)
Theorem sampler_never_stops :
  (forall w,
     events (CheckThroughput w) =
       Insert {| ev_ts := (Now w + Seconds 1)%Q; ev_impl := EvCheckThroughput |}
         (events w) /\
     m_stop (CheckThroughput w) = m_stop w) /\
  (forall w fuel,
     m_stop w = false -> no_stop_scheduled (events w) ->
     IsFinished (Simulator_Run fuel (CheckThroughput w)) = false /\
     armed (events (Simulator_Run fuel (CheckThroughput w)))) /\
  (forall cmd junk_nSinks junk_txp fs0 rng net fuel,
     (length net + 104 <= fuel)%nat ->
     exists w,
       main cmd junk_nSinks junk_txp fs0 rng net fuel = Some w /\
       m_stop w = true /\
       In {| ev_ts := Seconds TotalTime; ev_impl := EvCheckThroughput |} (events w)).
Proof.
  split; [|split].
  - intros w. split; reflexivity.
  - intros w fuel Hs Hns. apply running_forever.
    + exact Hs.
    + rewrite CheckThroughput_events. apply Insert_Forall; [discriminate | exact Hns].
    + rewrite CheckThroughput_events. apply Insert_armed.
  - intros cmd junk_nSinks junk_txp fs0 rng net fuel Hfuel.
    rewrite main_unfold.
    destruct (Run_complete (experiment_of cmd junk_nSinks junk_txp)
                (ofstream_trunc (csv_name cmd) [header] fs0)
                15 7.5 (csv_name cmd) rng net fuel)
      as (w & rows & HRun & _ & _ & _ & _ & Hst & Hin); [lia | exact Hfuel |].
    exists w. split; [exact HRun|]. split; [exact Hst | exact Hin].
Qed.

Lemma sampler_never_stops_witness :
  IsFinished (Simulator_Run 1000 (CheckThroughput (World_new 0 0 ∅))) = false /\
  exists w,
    main no_args 0 0 ∅ half [] 104 = Some w /\
    m_stop w = true /\
    In {| ev_ts := Seconds TotalTime; ev_impl := EvCheckThroughput |} (events w).
Proof.
  destruct sampler_never_stops as (_ & Hloop & Hmain). split.
  - apply (Hloop (World_new 0 0 ∅) 1000%nat); [reflexivity | constructor].
  - apply (Hmain no_args 0 0%Q ∅ half [] 104%nat). simpl. lia.
Defined.

(** ** The console line of a reception (C8) *)

Lemma append_empty_r s : s +:+ "" = s.
Proof.
  induction s as [|c s IH]; [reflexivity|].
  change (String c (s +:+ "") = String c s). f_equal. exact IH.
Qed.

(** C8: [ReceivePacket] logs one line per datagram taken from the socket,
    in order, and the line reads: the virtual time, a space, the id of the
    receiving node, and then " received one packet from " with the sender's
    IPv4 address when the sender is an [InetSocketAddress], or
    " received one packet!" when it is not. *)
Theorem received_packet_line show_double socket w :
  console (ReceivePacket socket w) =
    console w ++
    map (fun pa => PrintReceivedPacket (Now w) socket (fst pa) (snd pa))
      (rx_queue socket) /\
  forall t packet senderAddress,
    line_text show_double (PrintReceivedPacket t socket packet senderAddress) =
    show_double (GetSeconds t) +:+ " " +:+ show_uint (GetNode_GetId socket) +:+
    (if IsMatchingType senderAddress
     then " received one packet from " +:+ show_ipv4 (ConvertFrom_GetIpv4 senderAddress)
     else " received one packet!").
Proof.
  split.
  - apply ReceivePacket_loop_console.
  - intros t packet senderAddress. unfold PrintReceivedPacket.
    destruct (IsMatchingType senderAddress);
      cbn [app line_text token_text]; rewrite append_empty_r; reflexivity.
Qed.

(** ** The traffic plan (C4) *)

(** C4: for every pair index [i] below the sink count, the [i]-th flow has
    its sink on node [i] and its source on node [i + nSinks]; the sink
    starts at the first draw of the pair's random variable over [0, 1) and
    the source at its second draw over [100, 101); both stop at the total
    duration.  Hence, when the total duration is at least 101 s, every
    start is before its stop.  The node indices must be in range (at most
    15 sinks for the 30 nodes), and the draws of the generator lie in
    [0, 1). *)
Theorem traffic_plan nSinks TT prt rng :
  nSinks <= 15 ->
  (forall i k, 0 <= rng i k < 1)%Q ->
  exists fl,
    InstallFlows (Z.to_nat nSinks) 0 nSinks TT prt rng
      Run_all_Nodes Run_adhocInterfaces = Some fl /\
    length fl = Z.to_nat nSinks /\
    forall i, (i < Z.to_nat nSinks)%nat ->
      exists f, fl !! i = Some f /\
        sinkNode f = i /\ sourceNode f = (i + Z.to_nat nSinks)%nat /\
        sinkStart f = Seconds (GetValue (rng i 0%nat) 0 1) /\
        (0 <= sinkStart f < 1)%Q /\
        sourceStart f = Seconds (GetValue (rng i 1%nat) 100 101) /\
        (100 <= sourceStart f < 101)%Q /\
        sinkStop f = Seconds TT /\ sourceStop f = Seconds TT /\
        ((101 <= TT)%Q ->
         (sinkStart f < sinkStop f)%Q /\ (sourceStart f < sourceStop f)%Q).
Proof.
  intros Hn Hrng.
  exists (map (flow_of nSinks TT prt rng) (seq 0 (Z.to_nat nSinks))).
  split; [apply (InstallFlows_flow_of nSinks TT prt rng (Z.to_nat nSinks) 0); lia|].
  split; [rewrite length_map, length_seq; reflexivity|].
  intros i Hi. exists (flow_of nSinks TT prt rng i).
  split; [rewrite lookup_map, lookup_seq_lt by exact Hi; reflexivity|].
  pose proof (Hrng i 0%nat) as H0. pose proof (Hrng i 1%nat) as H1.
  cbn [flow_of sinkNode sourceNode sinkStart sourceStart sinkStop sourceStop].
  unfold Seconds, GetValue.
  repeat split; try reflexivity; try lra.
Qed.

Lemma traffic_plan_witness :
  15 <= 15 /\
  (forall i k, 0 <= half i k < 1)%Q /\
  exists fl,
    InstallFlows (Z.to_nat 15) 0 15 103 9 half
      Run_all_Nodes Run_adhocInterfaces = Some fl /\
    length fl = Z.to_nat 15 /\
    forall i, (i < Z.to_nat 15)%nat ->
      exists f, fl !! i = Some f /\
        sinkNode f = i /\ sourceNode f = (i + Z.to_nat 15)%nat /\
        sinkStart f = Seconds (GetValue (half i 0%nat) 0 1) /\
        (0 <= sinkStart f < 1)%Q /\
        sourceStart f = Seconds (GetValue (half i 1%nat) 100 101) /\
        (100 <= sourceStart f < 101)%Q /\
        sinkStop f = Seconds 103 /\ sourceStop f = Seconds 103 /\
        ((101 <= 103)%Q ->
         (sinkStart f < sinkStop f)%Q /\ (sourceStart f < sourceStop f)%Q).
Proof.
  assert (Hhalf : (forall i k : nat, 0 <= half i k < 1)%Q).
  { intros i k. unfold half. split; [discriminate | reflexivity]. }
  split; [lia|]. split; [exact Hhalf|].
  apply (traffic_plan 15 103 9 half); [lia | exact Hhalf].
Defined.

(** ** The counters between two firings (C3, C5) *)

Lemma sum_sizes_app l1 l2 :
  sum_sizes (l1 ++ l2) = (sum_sizes l1 + sum_sizes l2)%N.
Proof.
  unfold sum_sizes. induction l1 as [|x l1 IH]; simpl; [reflexivity|].
  rewrite IH. lia.
Qed.

Lemma deliver_all dl : forall w,
  (bytesTotal (this w) < 2 ^ 32)%N ->
  (packetsReceived (this w) < 2 ^ 32)%N ->
  let w' := fold_left deliver dl w in
  config w' = config w /\ fs w' = fs w /\
  bytesTotal (this w') = wrap32 (bytesTotal (this w) + sum_sizes (window dl)) /\
  packetsReceived (this w') =
    wrap32 (packetsReceived (this w) + N.of_nat (length (window dl))).
Proof.
  induction dl as [|[t socket] dl IH]; intros w Hb Hp; cbn [fold_left].
  - unfold window. simpl. rewrite !N.add_0_r, !wrap32_small by assumption.
    repeat split.
  - change (deliver w (t, socket))
      with (ReceivePacket_loop socket (rx_queue socket) (set_Now t w)).
    pose proof (ReceivePacket_loop_frame socket (rx_queue socket) (set_Now t w))
      as (Hc & Hf & _).
    pose proof (ReceivePacket_loop_counters socket (rx_queue socket) (set_Now t w) Hb Hp)
      as (Hb1 & Hp1).
    set (w1 := ReceivePacket_loop socket (rx_queue socket) (set_Now t w)) in *.
    destruct (IH w1) as (Hc' & Hf' & Hb' & Hp').
    { rewrite Hb1. apply wrap32_lt. }
    { rewrite Hp1. apply wrap32_lt. }
    cbv zeta. rewrite Hc', Hf', Hb', Hp', Hc, Hf, Hb1, Hp1.
    cbn [this set_Now].
    change (window ((t, socket) :: dl)) with (rx_queue socket ++ window dl).
    rewrite sum_sizes_app, length_app, !wrap32_add_l.
    repeat split; f_equal; lia.
Qed.

(** C3, as the spec states it, fails once the bytes of a window reach 2^32:
    [bytesTotal] is a [uint32_t] and wraps.  Two datagrams of 2^31 bytes
    between two firings give a row with rate 0 and not 8 * 2^32 / 1000. *)
Lemma window_rate_wraps :
  exists r,
    file "AODV-simulation.csv"
      (fs (next_firing (World_new 0 0 ∅) [((1 # 2)%Q, two_big_packets)] 1%Q)) =
    file "AODV-simulation.csv" (fs (CheckThroughput (World_new 0 0 ∅))) ++ [row_line r] /\
    sum_sizes (window [((1 # 2)%Q, two_big_packets)]) = 4294967296%N /\
    (rateKbps r == 0)%Q /\
    ~ (rateKbps r == 8 * inject_Z (Z.of_N 4294967296) / 1000)%Q.
Proof.
  exists {| timestamp := 1; rateKbps := 0 * 8 / 1000; packetCount := 2;
            sinkCount := 0; protocolLabel := ""; txPowerDbm := 0 |}.
  split; [vm_compute; reflexivity|].
  split; [reflexivity|].
  split; [reflexivity|].
  vm_compute. discriminate.
Qed.

(** C3, amended: the row of a firing reports the datagrams received since
    the previous firing, with both counts taken modulo 2^32: the rate is 8
    times (the sum of the sizes modulo 2^32) over 1000, the packet count is
    the number of datagrams modulo 2^32.  Below 2^32 these are the sum and
    the number themselves. *)
Theorem window_row w0 dl t :
  exists r,
    file (m_CSVfileName (this w0)) (fs (next_firing w0 dl t)) =
    file (m_CSVfileName (this w0)) (fs (CheckThroughput w0)) ++ [row_line r] /\
    timestamp r = GetSeconds t /\
    rateKbps r = (inject_Z (Z.of_N (wrap32 (sum_sizes (window dl)))) * 8 / 1000)%Q /\
    packetCount r = wrap32 (N.of_nat (length (window dl))) /\
    ((sum_sizes (window dl) < 2 ^ 32)%N ->
     (rateKbps r == 8 * inject_Z (Z.of_N (sum_sizes (window dl))) / 1000)%Q) /\
    ((N.of_nat (length (window dl)) < 2 ^ 32)%N ->
     packetCount r = N.of_nat (length (window dl))).
Proof.
  destruct (CheckThroughput_counters w0) as [Hb0 Hp0].
  destruct (CheckThroughput_frame w0) as (Hc0 & _).
  destruct (deliver_all dl (CheckThroughput w0)) as (Hc & Hf & Hb & Hp).
  { rewrite Hb0. reflexivity. }
  { rewrite Hp0. reflexivity. }
  rewrite Hb0, Hp0, !N.add_0_l in *.
  set (w2 := fold_left deliver dl (CheckThroughput w0)) in *.
  assert (Hname : m_CSVfileName (this w2) = m_CSVfileName (this w0)).
  { rewrite (config_name _ _ Hc). apply (config_name _ _ Hc0). }
  exists (sampled t (set_Now t w2)).
  split; [|split; [|split; [|split; [|split]]]].
  - unfold next_firing. fold w2. rewrite CheckThroughput_fs.
    cbn [this set_Now Now fs]. rewrite Hname, file_ofstream_app, Hf. reflexivity.
  - reflexivity.
  - cbn [sampled rateKbps this set_Now]. rewrite Hb. reflexivity.
  - cbn [sampled packetCount this set_Now]. exact Hp.
  - intros Hlt. cbn [sampled rateKbps this set_Now].
    rewrite Hb, wrap32_small by exact Hlt. field.
  - intros Hlt. cbn [sampled packetCount this set_Now].
    rewrite Hp. apply wrap32_small. exact Hlt.
Qed.

(** C5, as the spec states it, fails at the wrap-around: after a datagram of
    2^32 - 1 bytes, one more byte takes [bytesTotal] back to 0, with no
    firing in between. *)
Lemma byte_counter_wraps :
  bytesTotal (this (ReceivePacket (packet_of 4294967295) (World_new 0 0 ∅))) =
    4294967295%N /\
  bytesTotal (this (ReceivePacket (packet_of 1)
                      (ReceivePacket (packet_of 4294967295) (World_new 0 0 ∅)))) =
    0%N /\
  ~ (bytesTotal (this (ReceivePacket (packet_of 4294967295) (World_new 0 0 ∅))) <=
     bytesTotal (this (ReceivePacket (packet_of 1)
                         (ReceivePacket (packet_of 4294967295) (World_new 0 0 ∅)))))%N.
Proof.
  split; [reflexivity|]. split; [reflexivity|].
  vm_compute. intros H. apply H. reflexivity.
Qed.

(** C5, amended: a reception does not decrease the byte and packet counters
    as long as they stay below 2^32 (beyond, they wrap); a firing sets both
    to zero; and a second firing with no reception in between reports rate 0
    and packet count 0. *)
Theorem counters_between_firings w socket t :
  ((bytesTotal (this w) + sum_sizes (rx_queue socket) < 2 ^ 32)%N ->
   (packetsReceived (this w) + N.of_nat (length (rx_queue socket)) < 2 ^ 32)%N ->
   (bytesTotal (this w) <= bytesTotal (this (ReceivePacket socket w)))%N /\
   (packetsReceived (this w) <= packetsReceived (this (ReceivePacket socket w)))%N) /\
  bytesTotal (this (CheckThroughput w)) = 0%N /\
  packetsReceived (this (CheckThroughput w)) = 0%N /\
  exists r,
    file (m_CSVfileName (this w)) (fs (next_firing w [] t)) =
    file (m_CSVfileName (this w)) (fs (CheckThroughput w)) ++ [row_line r] /\
    (rateKbps r == 0)%Q /\ packetCount r = 0%N.
Proof.
  split.
  { intros Hb Hp.
    destruct (ReceivePacket_loop_counters socket (rx_queue socket) w) as [Hb' Hp'];
      [lia | lia |].
    unfold ReceivePacket. rewrite Hb', Hp', !wrap32_small by assumption.
    split; lia. }
  split; [reflexivity|]. split; [reflexivity|].
  exists (sampled t (set_Now t (CheckThroughput w))).
  split; [|split; reflexivity].
  unfold next_firing. cbn [fold_left]. rewrite CheckThroughput_fs.
  cbn [Now set_Now]. apply file_ofstream_app.
Qed.

Lemma counters_between_firings_witness :
  (bytesTotal (this (World_new 0 0 ∅)) <=
     bytesTotal (this (ReceivePacket (packet_of 512) (World_new 0 0 ∅))))%N /\
  (packetsReceived (this (World_new 0 0 ∅)) <=
     packetsReceived (this (ReceivePacket (packet_of 512) (World_new 0 0 ∅))))%N /\
  bytesTotal (this (CheckThroughput (World_new 0 0 ∅))) = 0%N /\
  packetsReceived (this (CheckThroughput (World_new 0 0 ∅))) = 0%N /\
  exists r,
    file (m_CSVfileName (this (World_new 0 0 ∅)))
      (fs (next_firing (World_new 0 0 ∅) [] 1%Q)) =
    file (m_CSVfileName (this (World_new 0 0 ∅)))
      (fs (CheckThroughput (World_new 0 0 ∅))) ++ [row_line r] /\
    (rateKbps r == 0)%Q /\ packetCount r = 0%N.
Proof.
  destruct (counters_between_firings (World_new 0 0 ∅) (packet_of 512) 1%Q)
    as (Hmono & Hrest).
  destruct Hmono as [Hb Hp]; [reflexivity | reflexivity |].
  split; [exact Hb|]. split; [exact Hp|]. exact Hrest.
Defined.

(** The scenario of the spec: one datagram of 512 bytes arrives at 0.5 s, the
    sampler fires at 1 s; the row reports 4.096 kbit/s and one packet. *)
Lemma window_row_witness :
  exists r,
    file "AODV-simulation.csv"
      (fs (next_firing (World_new 0 0 ∅) [((1 # 2)%Q, packet_of 512)] 1%Q)) =
    file "AODV-simulation.csv" (fs (CheckThroughput (World_new 0 0 ∅))) ++ [row_line r] /\
    timestamp r = 1%Q /\ (rateKbps r == 4.096)%Q /\ packetCount r = 1%N.
Proof.
  destruct (window_row (World_new 0 0 ∅) [((1 # 2)%Q, packet_of 512)] 1%Q)
    as (r & Hf & Ht & _ & _ & Hrate & Hcount).
  exists r. split; [exact Hf|]. split; [exact Ht|]. split.
  - rewrite Hrate; reflexivity.
  - rewrite Hcount; reflexivity.
Defined.

(** * Further properties of the code *)

(** ** The loop of [Run] over the sink/source pairs *)

Lemma Get_all_Nodes_out i : 30 <= i -> Get Run_all_Nodes i = None.
Proof.
  intros Hi. unfold Get. destruct (i <? 0) eqn:E; [reflexivity|].
  apply lookup_ge_None. change (length Run_all_Nodes) with 30%nat. lia.
Qed.

(** Once the source index of some iteration leaves the thirty nodes, the
    loop is undefined. *)
Lemma InstallFlows_out_of_range nSinks TT prt rng : forall n i,
  0 <= i -> (0 < n)%nat -> 30 < i + Z.of_nat n + nSinks ->
  InstallFlows n i nSinks TT prt rng Run_all_Nodes Run_adhocInterfaces = None.
Proof.
  induction n as [|n IH]; intros i Hi Hn Hout; [lia|].
  cbn [InstallFlows].
  destruct (Get Run_adhocInterfaces i) as [addr|]; [|reflexivity].
  destruct (Get Run_all_Nodes i) as [snk|]; [|reflexivity].
  destruct (Get Run_all_Nodes (i + nSinks)) as [src|] eqn:Esrc; [|reflexivity].
  destruct n as [|n'].
  - rewrite Get_all_Nodes_out in Esrc by lia. discriminate Esrc.
  - rewrite IH by lia. reflexivity.
Qed.

(** X1: [Run] indexes the node container without a bounds check; the access
    is out of range, and [Run] undefined, exactly when there are more than
    15 sinks.  This holds from every world. *)
Theorem Run_defined_iff nSinks txp name rng net fuel w :
  Run nSinks txp name rng net fuel w = None <-> 15 < nSinks.
Proof.
  unfold Run.
  cbn [this set_this port set_m_protocolName set_m_CSVfileName set_m_txp
       set_m_nSinks set_routing].
  split.
  - intros H. destruct (Z_lt_le_dec 15 nSinks) as [Hlt|Hle]; [exact Hlt|].
    rewrite InstallFlows_flow_of in H by lia. discriminate H.
  - intros Hlt. rewrite InstallFlows_out_of_range by lia. reflexivity.
Qed.

(** X2: with no sink at all (a count of zero, or a negative one) [Run]
    installs no flow, and the sampler still writes its rows for the seconds
    0 to 102, each with that sink count. *)
Theorem no_sinks_still_samples e fs0 nSinks txp name rng net fuel :
  nSinks <= 0 -> (length net + 104 <= fuel)%nat ->
  exists w rows,
    Run nSinks txp name rng net fuel (World_of e fs0) = Some w /\
    flows w = [] /\
    fs w = append_lines name (map row_line rows) fs0 /\
    map timestamp rows = map at_second (seq 0 103) /\
    Forall (fun r => sinkCount r = nSinks) rows.
Proof.
  intros Hn Hfuel.
  destruct (Run_complete e fs0 nSinks txp name rng net fuel)
    as (w & rows & HRun & Hc & Hf & Hrows & Hts & _); [lia | exact Hfuel |].
  exists w, (first_row e nSinks txp :: rows).
  split; [exact HRun|]. split; [|split; [exact Hf|split]].
  - unfold config, Run_config in Hc.
    replace (Z.to_nat nSinks) with 0%nat in Hc by lia.
    injection Hc as _ _ _ _ _ _ _ _ Hfl. exact Hfl.
  - cbn [map]. rewrite Hts. reflexivity.
  - constructor; [reflexivity|].
    eapply Forall_impl; [exact Hrows|]. intros r (H1 & _). exact H1.
Qed.

Lemma no_sinks_still_samples_witness :
  0 <= 0 /\ (length (@nil (Time * Socket)) + 104 <= 104)%nat /\
  exists w rows,
    Run 0 7.5 "out.csv" half [] 104 (World_of (RoutingExperiment_new 0 0) ∅) = Some w /\
    flows w = [] /\
    fs w = append_lines "out.csv" (map row_line rows) ∅ /\
    map timestamp rows = map at_second (seq 0 103) /\
    Forall (fun r => sinkCount r = 0) rows.
Proof.
  split; [lia|]. split; [simpl; lia|].
  apply (no_sinks_still_samples (RoutingExperiment_new 0 0) ∅ 0 7.5 "out.csv"
           half [] 104); [lia | simpl; lia].
Defined.

Lemma map_add_seq k m : forall a,
  map (fun x => (x + k)%nat) (seq a m) = seq (a + k) m.
Proof.
  induction m as [|m IH]; intros a; [reflexivity|].
  cbn [seq map]. rewrite IH. reflexivity.
Qed.

(** X3: the sinks are the first [nSinks] nodes and the sources the next
    [nSinks] nodes, each once: no node carries two applications.  With the
    15 sinks of [main] these are all thirty nodes. *)
Theorem flows_use_nodes_once nSinks TT prt rng :
  nSinks <= 15 ->
  exists fl,
    InstallFlows (Z.to_nat nSinks) 0 nSinks TT prt rng
      Run_all_Nodes Run_adhocInterfaces = Some fl /\
    map sinkNode fl = seq 0 (Z.to_nat nSinks) /\
    map sourceNode fl = seq (Z.to_nat nSinks) (Z.to_nat nSinks) /\
    NoDup (map sinkNode fl ++ map sourceNode fl) /\
    (nSinks = 15 -> map sinkNode fl ++ map sourceNode fl = Run_all_Nodes).
Proof.
  intros Hn.
  exists (map (flow_of nSinks TT prt rng) (seq 0 (Z.to_nat nSinks))).
  split; [apply (InstallFlows_flow_of nSinks TT prt rng (Z.to_nat nSinks) 0); lia|].
  assert (Hsnk : map sinkNode (map (flow_of nSinks TT prt rng) (seq 0 (Z.to_nat nSinks)))
                 = seq 0 (Z.to_nat nSinks)).
  { rewrite List.map_map. cbn [flow_of sinkNode]. apply List.map_id. }
  assert (Hsrc : map sourceNode (map (flow_of nSinks TT prt rng) (seq 0 (Z.to_nat nSinks)))
                 = seq (Z.to_nat nSinks) (Z.to_nat nSinks)).
  { rewrite List.map_map. cbn [flow_of sourceNode].
    apply (map_add_seq (Z.to_nat nSinks) (Z.to_nat nSinks) 0). }
  rewrite Hsnk, Hsrc. split; [reflexivity|]. split; [reflexivity|]. split.
  - rewrite <- List.seq_app. apply NoDup_seq.
  - intros ->. reflexivity.
Qed.

Lemma flows_use_nodes_once_witness :
  15 <= 15 /\
  exists fl,
    InstallFlows (Z.to_nat 15) 0 15 103 9 half
      Run_all_Nodes Run_adhocInterfaces = Some fl /\
    map sinkNode fl = seq 0 (Z.to_nat 15) /\
    map sourceNode fl = seq (Z.to_nat 15) (Z.to_nat 15) /\
    NoDup (map sinkNode fl ++ map sourceNode fl) /\
    (15 = 15 -> map sinkNode fl ++ map sourceNode fl = Run_all_Nodes).
Proof.
  split; [lia|]. apply (flows_use_nodes_once 15 103 9 half). lia.
Defined.

Lemma In_flows nSinks TT prt rng f :
  In f (map (flow_of nSinks TT prt rng) (seq 0 (Z.to_nat nSinks))) ->
  exists i, (i < Z.to_nat nSinks)%nat /\ f = flow_of nSinks TT prt rng i.
Proof.
  intros Hin. apply in_map_iff in Hin. destruct Hin as (i & <- & Hi).
  apply in_seq in Hi. exists i. split; [lia | reflexivity].
Qed.

(** X4: as [Run] plans the traffic (stop at 103 s), and with the draws of the
    generator in [0, 1), every sink starts before every source does, a sink
    runs for more than 102 s and a source for more than 2 s and at most
    3 s. *)
Theorem sinks_listen_before_sources_send nSinks prt rng :
  nSinks <= 15 ->
  (forall i k, 0 <= rng i k < 1)%Q ->
  exists fl,
    InstallFlows (Z.to_nat nSinks) 0 nSinks TotalTime prt rng
      Run_all_Nodes Run_adhocInterfaces = Some fl /\
    forall f g, In f fl -> In g fl ->
      (sinkStart f < sourceStart g)%Q /\
      (102 < sinkStop f - sinkStart f <= 103)%Q /\
      (2 < sourceStop g - sourceStart g <= 3)%Q.
Proof.
  intros Hn Hrng.
  exists (map (flow_of nSinks TotalTime prt rng) (seq 0 (Z.to_nat nSinks))).
  split; [apply (InstallFlows_flow_of nSinks TotalTime prt rng (Z.to_nat nSinks) 0); lia|].
  intros f g Hf Hg.
  apply In_flows in Hf. destruct Hf as (i & _ & ->).
  apply In_flows in Hg. destruct Hg as (j & _ & ->).
  pose proof (Hrng i 0%nat) as Hi. pose proof (Hrng j 1%nat) as Hj.
  cbn [flow_of sinkStart sourceStart sinkStop sourceStop].
  unfold Seconds, GetValue, TotalTime. repeat split; lra.
Qed.

Lemma sinks_listen_before_sources_send_witness :
  15 <= 15 /\
  (forall i k, 0 <= half i k < 1)%Q /\
  exists fl,
    InstallFlows (Z.to_nat 15) 0 15 TotalTime 9 half
      Run_all_Nodes Run_adhocInterfaces = Some fl /\
    forall f g, In f fl -> In g fl ->
      (sinkStart f < sourceStart g)%Q /\
      (102 < sinkStop f - sinkStart f <= 103)%Q /\
      (2 < sourceStop g - sourceStart g <= 3)%Q.
Proof.
  assert (Hhalf : (forall i k : nat, 0 <= half i k < 1)%Q).
  { intros i k. unfold half. split; [discriminate | reflexivity]. }
  split; [lia|]. split; [exact Hhalf|].
  apply (sinks_listen_before_sources_send 15 9 half); [lia | exact Hhalf].
Defined.

(** X5: every source sends to the very address and port its own sink is
    bound to, which is an [InetSocketAddress], and the sinks of different
    pairs are bound to different addresses. *)
Theorem flows_addressing nSinks TT prt rng :
  nSinks <= 15 ->
  exists fl,
    InstallFlows (Z.to_nat nSinks) 0 nSinks TT prt rng
      Run_all_Nodes Run_adhocInterfaces = Some fl /\
    (forall f, In f fl ->
       remoteAddress f = sinkAddress f /\ IsMatchingType (sinkAddress f) = true) /\
    (forall i j f g,
       fl !! i = Some f -> fl !! j = Some g ->
       sinkAddress f = sinkAddress g -> i = j).
Proof.
  intros Hn.
  exists (map (flow_of nSinks TT prt rng) (seq 0 (Z.to_nat nSinks))).
  split; [apply (InstallFlows_flow_of nSinks TT prt rng (Z.to_nat nSinks) 0); lia|].
  split.
  - intros f Hf. apply In_flows in Hf. destruct Hf as (i & _ & ->).
    split; reflexivity.
  - intros i j f g Hi Hj Heq.
    rewrite lookup_map in Hi, Hj.
    destruct (seq 0 (Z.to_nat nSinks) !! i) as [a|] eqn:Ea; [|discriminate Hi].
    destruct (seq 0 (Z.to_nat nSinks) !! j) as [b|] eqn:Eb; [|discriminate Hj].
    apply lookup_seq in Ea. apply lookup_seq in Eb.
    destruct Ea as [-> _]. destruct Eb as [-> _].
    cbn [option_map] in Hi, Hj.
    injection Hi as <-. injection Hj as <-.
    cbn [flow_of sinkAddress] in Heq. injection Heq as Heq. lia.
Qed.

Lemma flows_addressing_witness :
  15 <= 15 /\
  exists fl,
    InstallFlows (Z.to_nat 15) 0 15 103 9 half
      Run_all_Nodes Run_adhocInterfaces = Some fl /\
    (forall f, In f fl ->
       remoteAddress f = sinkAddress f /\ IsMatchingType (sinkAddress f) = true) /\
    (forall i j f g,
       fl !! i = Some f -> fl !! j = Some g ->
       sinkAddress f = sinkAddress g -> i = j).
Proof.
  split; [lia|]. apply (flows_addressing 15 103 9 half). lia.
Defined.

(** ** Receptions and firings *)

(** X6: a reception changes the two counters and the console only: it
    writes no file, schedules and cancels nothing, leaves the clock, the stop
    flag and the other fields alone, and logs exactly one line per datagram
    it takes from the socket, none when the queue is empty. *)
Theorem reception_frame socket w :
  fs (ReceivePacket socket w) = fs w /\
  events (ReceivePacket socket w) = events w /\
  Now (ReceivePacket socket w) = Now w /\
  m_stop (ReceivePacket socket w) = m_stop w /\
  config (ReceivePacket socket w) = config w /\
  length (console (ReceivePacket socket w)) =
    (length (console w) + length (rx_queue socket))%nat.
Proof.
  unfold ReceivePacket.
  destruct (ReceivePacket_loop_frame socket (rx_queue socket) w)
    as (Hc & Hf & He & Hs & Hn).
  repeat split; try assumption.
  rewrite ReceivePacket_loop_console, length_app, length_map. reflexivity.
Qed.

Lemma window_sample_config w w' win :
  config w' = config w -> window_sample w' win = window_sample w win.
Proof.
  unfold config, window_sample. intros Hc.
  injection Hc as _ H1 H2 H3 _ _ _ _ _. rewrite H1, H2, H3. reflexivity.
Qed.

(** One window from a world with both counters at zero. *)
Lemma fire_after_row w win :
  bytesTotal (this w) = 0%N -> packetsReceived (this w) = 0%N ->
  config (fire_after w win) = config w /\
  bytesTotal (this (fire_after w win)) = 0%N /\
  packetsReceived (this (fire_after w win)) = 0%N /\
  fs (fire_after w win) =
    ofstream_app (m_CSVfileName (this w)) (row_line (window_sample w win)) (fs w).
Proof.
  intros Hb Hp. unfold fire_after.
  destruct (deliver_all (fst win) w) as (Hc & Hf & Hb' & Hp').
  { rewrite Hb. reflexivity. }
  { rewrite Hp. reflexivity. }
  rewrite Hb, Hp, !N.add_0_l in *.
  set (w2 := fold_left deliver (fst win) w) in *.
  split; [|split; [|split]]; try reflexivity.
  - transitivity (config w2); [reflexivity | exact Hc].
  - rewrite CheckThroughput_fs. cbn [this set_Now Now fs].
    rewrite (config_name _ _ Hc), Hf. do 2 f_equal.
    rewrite <- (window_sample_config w w2 win Hc).
    unfold sampled, window_sample. cbn [this set_Now]. rewrite Hb', Hp'.
    reflexivity.
Qed.

Lemma fire_after_rows wins : forall w,
  bytesTotal (this w) = 0%N -> packetsReceived (this w) = 0%N ->
  fs (fold_left fire_after wins w) =
  append_lines (m_CSVfileName (this w))
    (map (fun win => row_line (window_sample w win)) wins) (fs w).
Proof.
  induction wins as [|win wins IH]; intros w Hb Hp; [reflexivity|].
  cbn [fold_left map].
  destruct (fire_after_row w win Hb Hp) as (Hc & Hb1 & Hp1 & Hf1).
  rewrite (IH (fire_after w win) Hb1 Hp1), Hf1, (config_name _ _ Hc).
  unfold append_lines at 2. cbn [fold_left]. fold (append_lines (m_CSVfileName (this w))).
  f_equal. apply map_ext. intros win'.
  rewrite (window_sample_config w (fire_after w win) win' Hc). reflexivity.
Qed.

(** X8: after a firing, any number of windows (receptions, then a firing)
    adds one row per window, in order, and each row reports its own window
    only: the time of its firing, the bytes and the datagrams received since
    the firing before (modulo 2^32), and the fields of the experiment.
    Nothing of an earlier window shows in a later row. *)
Theorem windows_rows w0 wins :
  file (m_CSVfileName (this w0))
    (fs (fold_left fire_after wins (CheckThroughput w0))) =
  file (m_CSVfileName (this w0)) (fs (CheckThroughput w0)) ++
  map (fun win => row_line (window_sample w0 win)) wins.
Proof.
  destruct (CheckThroughput_counters w0) as [Hb Hp].
  rewrite (fire_after_rows wins (CheckThroughput w0) Hb Hp).
  apply file_append_lines.
Qed.

(** X9: whatever was received, the row of a firing that follows another
    firing reports a rate of at least 0 and below 8 * 2^32 / 1000 kbit/s, and
    a packet count below 2^32. *)
Theorem reported_rate_bounds w0 dl t :
  exists r,
    file (m_CSVfileName (this w0)) (fs (next_firing w0 dl t)) =
      file (m_CSVfileName (this w0)) (fs (CheckThroughput w0)) ++ [row_line r] /\
    (0 <= rateKbps r < 34359738.368)%Q /\
    (packetCount r < 2 ^ 32)%N.
Proof.
  destruct (CheckThroughput_counters w0) as [Hb Hp].
  destruct (fire_after_row (CheckThroughput w0) (dl, t) Hb Hp) as (_ & _ & _ & Hf).
  exists (window_sample (CheckThroughput w0) (dl, t)).
  split; [|split].
  - change (next_firing w0 dl t) with (fire_after (CheckThroughput w0) (dl, t)).
    rewrite Hf. apply file_ofstream_app.
  - cbn [window_sample rateKbps fst].
    pose proof (wrap32_lt (sum_sizes (window dl))) as Hlt.
    set (x := wrap32 (sum_sizes (window dl))) in *.
    assert (H0 : (0 <= inject_Z (Z.of_N x))%Q) by (unfold Qle; simpl; lia).
    assert (H1 : (inject_Z (Z.of_N x) < 4294967296)%Q) by (unfold Qlt; simpl; lia).
    revert H0 H1. generalize (inject_Z (Z.of_N x)). intros q H0 H1.
    split.
    + apply Qle_shift_div_l; [reflexivity | lra].
    + apply Qlt_shift_div_r; [reflexivity | lra].
  - apply wrap32_lt.
Qed.

(** ** A run without receptions *)

Lemma Run_no_reception e fs0 nSinks txp name rng fuel :
  nSinks <= 15 ->
  exists w0,
    Run nSinks txp name rng [] fuel (World_of e fs0) = Some (Simulator_Run fuel w0) /\
    config w0 = Run_config e nSinks txp name rng /\
    fs w0 = append_lines name [row_line (first_row e nSinks txp)] fs0 /\
    bytesTotal (this w0) = 0%N /\ packetsReceived (this w0) = 0%N /\
    events w0 = [CT 1; STOP] /\ console w0 = [].
Proof.
  intros Hn. unfold Run.
  cbn [this set_this port set_m_protocolName set_m_CSVfileName set_m_txp
       set_m_nSinks set_routing World_of].
  rewrite InstallFlows_flow_of by lia.
  eexists. split; [reflexivity|].
  split; [reflexivity|]. split; [reflexivity|]. split; [reflexivity|].
  split; [reflexivity|]. split; reflexivity.
Qed.

Lemma Invoke_quiet ev q w :
  quiet w -> events w = ev :: q ->
  quiet (Invoke (ev_impl ev) (set_Now (ev_ts ev) (set_events q w))) /\
  Forall zero_row
    (match ev_impl ev with
     | EvCheckThroughput => [sampled (ev_ts ev) w]
     | _ => []
     end).
Proof.
  intros (Hb & Hp & Hown & Hcon) Hq. rewrite Hq in Hown.
  inversion Hown as [|? ? Hev Hrest]; subst. unfold is_own in Hev.
  destruct (ev_impl ev) as [| |socket]; [| |discriminate Hev]; cbn [Invoke].
  - split; [|constructor]. repeat split; assumption.
  - split.
    + split; [reflexivity|]. split; [reflexivity|]. split; [|exact Hcon].
      rewrite CheckThroughput_events. cbn [events set_Now set_events].
      apply Insert_Forall; [reflexivity | exact Hrest].
    + constructor; [|constructor]. unfold zero_row, sampled.
      cbn [rateKbps packetCount]. rewrite Hb, Hp. split; reflexivity.
Qed.

Lemma Simulator_Run_quiet fuel : forall w,
  quiet w ->
  exists rows,
    wrote w (Simulator_Run fuel w) rows /\ Forall zero_row rows /\
    quiet (Simulator_Run fuel w).
Proof.
  induction fuel as [|n IH]; intros w Hquiet.
  - exists []. split; [apply wrote_refl; reflexivity|]. split; [constructor | exact Hquiet].
  - cbn [Simulator_Run]. destruct (IsFinished w) eqn:Hfin.
    + exists []. split; [apply wrote_refl; reflexivity|].
      split; [constructor | exact Hquiet].
    + unfold ProcessOneEvent. unfold IsFinished in Hfin.
      destruct (events w) as [|ev q] eqn:Hq; [discriminate Hfin|].
      destruct (Invoke_quiet ev q w Hquiet Hq) as (Hquiet1 & Hzero1).
      pose proof (Invoke_wrote ev q w) as Hstep.
      destruct (IH _ Hquiet1) as (rows & Hrows & Hzero & Hquiet').
      eexists. split; [eapply wrote_trans; [exact Hstep | exact Hrows]|].
      split; [|exact Hquiet']. apply Forall_app. split; assumption.
Qed.

(** X10: [Run] as written hands the sinks to [PacketSink] applications and
    never registers [ReceivePacket] on a socket.  With no reception, every
    row of the file reports rate 0 and 0 packets, for every command line and
    however long the run gets, and nothing is logged on the console. *)
Theorem quiet_run_reports_zero cmd junk_nSinks junk_txp fs0 rng fuel :
  exists w rows,
    main cmd junk_nSinks junk_txp fs0 rng [] fuel = Some w /\
    file (csv_name cmd) (fs w) = header :: map row_line rows /\
    Forall zero_row rows /\
    console w = [].
Proof.
  rewrite main_unfold.
  destruct (Run_no_reception (experiment_of cmd junk_nSinks junk_txp)
              (ofstream_trunc (csv_name cmd) [header] fs0)
              15 7.5 (csv_name cmd) rng fuel)
    as (w0 & HRun & Hc & Hf & Hb & Hp & Hev & Hcon); [lia|].
  destruct (Simulator_Run_quiet fuel w0) as (rows & (_ & Hf' & _) & Hzero & Hquiet).
  { repeat split; try assumption. rewrite Hev. repeat constructor. }
  destruct (experiment_of_counters cmd junk_nSinks junk_txp) as [Hb0 Hp0].
  exists (Simulator_Run fuel w0),
    (first_row (experiment_of cmd junk_nSinks junk_txp) 15 7.5 :: rows).
  split; [exact HRun|]. split; [|split].
  - rewrite Hf', Hf.
    replace (m_CSVfileName (this w0)) with (csv_name cmd)
      by (unfold config, Run_config in Hc; congruence).
    change (map row_line (first_row (experiment_of cmd junk_nSinks junk_txp) 15 7.5 :: rows))
      with ([row_line (first_row (experiment_of cmd junk_nSinks junk_txp) 15 7.5)]
            ++ map row_line rows).
    rewrite <- append_lines_app. apply file_main_rows.
  - constructor; [|exact Hzero]. unfold zero_row, first_row.
    cbn [rateKbps packetCount]. rewrite Hb0, Hp0. split; reflexivity.
  - destruct Hquiet as (_ & _ & _ & Hcon'). exact Hcon'.
Qed.

(** ** The output file and the command line *)

Lemma ReceivePacket_loop_set_fs f socket rx : forall w,
  ReceivePacket_loop socket rx (set_fs f w) =
  set_fs f (ReceivePacket_loop socket rx w).
Proof.
  induction rx as [|[packet sender] rx IH]; intros w; cbn [ReceivePacket_loop].
  - reflexivity.
  - rewrite <- IH. reflexivity.
Qed.

Lemma Network_events_set_fs f net : forall w,
  Network_events net (set_fs f w) = set_fs f (Network_events net w).
Proof.
  unfold Network_events.
  induction net as [|ds net IH]; intros w; cbn [fold_left]; [reflexivity|].
  rewrite <- IH. reflexivity.
Qed.

(** One dispatch from two worlds that differ in their files only: the same
    rows are appended in both. *)
Lemma ProcessOneEvent_set_fs f w :
  exists rows,
    ProcessOneEvent (set_fs f w) =
      set_fs (append_lines (m_CSVfileName (this w)) (map row_line rows) f)
        (ProcessOneEvent w) /\
    fs (ProcessOneEvent w) =
      append_lines (m_CSVfileName (this w)) (map row_line rows) (fs w) /\
    m_CSVfileName (this (ProcessOneEvent w)) = m_CSVfileName (this w).
Proof.
  unfold ProcessOneEvent. change (events (set_fs f w)) with (events w).
  destruct (events w) as [|ev q].
  { exists []. repeat split. }
  destruct (ev_impl ev) as [| |socket]; cbn [Invoke].
  - exists []. repeat split.
  - exists [sampled (ev_ts ev) w]. repeat split.
  - exists []. unfold ReceivePacket.
    change (set_Now (ev_ts ev) (set_events q (set_fs f w)))
      with (set_fs f (set_Now (ev_ts ev) (set_events q w))).
    rewrite ReceivePacket_loop_set_fs.
    destruct (ReceivePacket_loop_frame socket (rx_queue socket)
                (set_Now (ev_ts ev) (set_events q w))) as (Hc & Hf & _).
    split; [reflexivity|]. split; [exact Hf|].
    apply (config_name _ _ Hc).
Qed.

Lemma Simulator_Run_set_fs fuel : forall w f,
  exists rows,
    Simulator_Run fuel (set_fs f w) =
      set_fs (append_lines (m_CSVfileName (this w)) (map row_line rows) f)
        (Simulator_Run fuel w) /\
    fs (Simulator_Run fuel w) =
      append_lines (m_CSVfileName (this w)) (map row_line rows) (fs w).
Proof.
  induction fuel as [|n IH]; intros w f.
  - exists []. split; reflexivity.
  - cbn [Simulator_Run].
    change (IsFinished (set_fs f w)) with (IsFinished w).
    destruct (IsFinished w).
    + exists []. split; reflexivity.
    + destruct (ProcessOneEvent_set_fs f w) as (r1 & H1 & Hf1 & Hname).
      rewrite H1.
      destruct (IH (ProcessOneEvent w)
                  (append_lines (m_CSVfileName (this w)) (map row_line r1) f))
        as (rows & H2 & Hf2).
      exists (r1 ++ rows).
      rewrite H2, Hf2, Hf1, Hname, map_app, !append_lines_app.
      split; reflexivity.
Qed.

(** [Run] from two file systems: the same lines are appended in both, and
    the two worlds differ in their files only. *)
Lemma Run_set_fs e fs0 fs1 nSinks txp name rng net fuel :
  nSinks <= 15 ->
  exists w lines,
    Run nSinks txp name rng net fuel (World_of e fs0) = Some w /\
    fs w = append_lines name lines fs0 /\
    Run nSinks txp name rng net fuel (World_of e fs1) =
      Some (set_fs (append_lines name lines fs1) w).
Proof.
  intros Hn.
  pose (pre := fun f =>
    set_flows (map (flow_of nSinks TotalTime (port e) rng) (seq 0 (Z.to_nat nSinks)))
      (set_routing [(Ipv4StaticRoutingHelper, 0); (AodvHelper, 60)]
         (World_of
            (set_m_protocolName "AODV"
               (set_m_CSVfileName name (set_m_txp txp (set_m_nSinks nSinks e)))) f))).
  assert (HRun : forall f,
            Run nSinks txp name rng net fuel (World_of e f) =
            Some (Simulator_Run fuel
                    (Simulator_Stop (Seconds TotalTime)
                       (CheckThroughput (Network_events net (pre f)))))).
  { intros f. unfold Run.
    cbn [this set_this port set_m_protocolName set_m_CSVfileName set_m_txp
         set_m_nSinks set_routing World_of].
    rewrite InstallFlows_flow_of by lia. reflexivity. }
  rewrite !HRun.
  change (pre fs1) with (set_fs fs1 (pre fs0)).
  rewrite (Network_events_set_fs fs1 net).
  destruct (Network_events_spec net (pre fs0)) as (Hthis & Hnow & Hfs & _).
  set (wn := Network_events net (pre fs0)) in *.
  cbn [pre this fs Now set_flows set_routing World_of] in Hthis, Hnow, Hfs.
  set (row0 := row_line (sampled (Now wn) wn)).
  assert (Hname : m_CSVfileName (this wn) = name) by (rewrite Hthis; reflexivity).
  change (Simulator_Stop (Seconds TotalTime) (CheckThroughput (set_fs fs1 wn)))
    with (set_fs (ofstream_app (m_CSVfileName (this wn)) row0 fs1)
            (Simulator_Stop (Seconds TotalTime) (CheckThroughput wn))).
  destruct (Simulator_Run_set_fs fuel
              (Simulator_Stop (Seconds TotalTime) (CheckThroughput wn))
              (ofstream_app (m_CSVfileName (this wn)) row0 fs1))
    as (rows & HR & Hf).
  change (m_CSVfileName (this (Simulator_Stop (Seconds TotalTime) (CheckThroughput wn))))
    with (m_CSVfileName (this wn)) in HR, Hf.
  change (fs (Simulator_Stop (Seconds TotalTime) (CheckThroughput wn)))
    with (ofstream_app (m_CSVfileName (this wn)) row0 (fs wn)) in Hf.
  rewrite Hname, Hfs in *.
  exists (Simulator_Run fuel (Simulator_Stop (Seconds TotalTime) (CheckThroughput wn))),
    ([row0] ++ map row_line rows).
  split; [reflexivity|]. split.
  - rewrite Hf, append_lines_app. reflexivity.
  - rewrite HR, append_lines_app. reflexivity.
Qed.

(** X11: [main] blanks out the last output file.  The file it leaves, and
    everything else of the final world but the file system, is the same
    whatever the file system held before. *)
Theorem old_output_is_discarded cmd junk_nSinks junk_txp fs0 fs1 rng net fuel :
  exists w w',
    main cmd junk_nSinks junk_txp fs0 rng net fuel = Some w /\
    main cmd junk_nSinks junk_txp fs1 rng net fuel = Some w' /\
    file (csv_name cmd) (fs w') = file (csv_name cmd) (fs w) /\
    w' = set_fs (fs w') w.
Proof.
  rewrite !main_unfold.
  destruct (Run_set_fs (experiment_of cmd junk_nSinks junk_txp)
              (ofstream_trunc (csv_name cmd) [header] fs0)
              (ofstream_trunc (csv_name cmd) [header] fs1)
              15 7.5 (csv_name cmd) rng net fuel)
    as (w & lines & HRun & Hf & HRun'); [lia|].
  eexists w, _. split; [exact HRun|]. split; [exact HRun'|]. split.
  - cbn [fs set_fs]. rewrite Hf, !file_main_rows. reflexivity.
  - reflexivity.
Qed.

(** X12: with the option [CSVfileName] naming another file than the default
    one, the header and the rows go to the named file, and the default file
    "AODV-simulation.csv" is left as it was. *)
Theorem csv_option_redirects_output name trace junk_nSinks junk_txp fs0 rng net fuel :
  name <> "AODV-simulation.csv"%string ->
  exists w rows,
    main {| arg_CSVfileName := Some name; arg_traceMobility := trace |}
      junk_nSinks junk_txp fs0 rng net fuel = Some w /\
    m_CSVfileName (this w) = name /\
    file name (fs w) = header :: map row_line rows /\
    fs w !! "AODV-simulation.csv"%string = fs0 !! "AODV-simulation.csv"%string.
Proof.
  intros Hne. rewrite main_unfold.
  set (cmd := {| arg_CSVfileName := Some name; arg_traceMobility := trace |}).
  change (csv_name cmd) with name.
  destruct (Run_partial (experiment_of cmd junk_nSinks junk_txp)
              (ofstream_trunc name [header] fs0) 15 7.5 name rng net fuel)
    as (w & rows & HRun & Hc & Hf & _); [lia|].
  exists w, (first_row (experiment_of cmd junk_nSinks junk_txp) 15 7.5 :: rows).
  split; [exact HRun|]. split; [|split].
  - unfold config, Run_config in Hc. congruence.
  - rewrite Hf. apply (file_main_rows cmd).
  - rewrite Hf, lookup_append_lines_ne by exact Hne.
    unfold ofstream_trunc. apply lookup_insert_ne. exact Hne.
Qed.

Lemma csv_option_redirects_output_witness :
  "out.csv"%string <> "AODV-simulation.csv"%string /\
  exists w rows,
    main {| arg_CSVfileName := Some "out.csv"%string; arg_traceMobility := None |}
      0 0 ∅ half [] 10 = Some w /\
    m_CSVfileName (this w) = "out.csv"%string /\
    file "out.csv" (fs w) = header :: map row_line rows /\
    fs w !! "AODV-simulation.csv"%string =
      (∅ : gmap string (list Line)) !! "AODV-simulation.csv"%string.
Proof.
  assert (Hne : "out.csv"%string <> "AODV-simulation.csv"%string) by discriminate.
  split; [exact Hne|].
  apply (csv_option_redirects_output "out.csv" None 0 0 ∅ half [] 10 Hne).
Defined.

Lemma ReceivePacket_loop_traceMobility b socket rx : forall w,
  ReceivePacket_loop socket rx (with_traceMobility b w) =
  with_traceMobility b (ReceivePacket_loop socket rx w).
Proof.
  induction rx as [|[packet sender] rx IH]; intros w; cbn [ReceivePacket_loop].
  - reflexivity.
  - rewrite <- IH. reflexivity.
Qed.

Lemma ProcessOneEvent_traceMobility b w :
  ProcessOneEvent (with_traceMobility b w) =
  with_traceMobility b (ProcessOneEvent w).
Proof.
  unfold ProcessOneEvent. change (events (with_traceMobility b w)) with (events w).
  destruct (events w) as [|ev q]; [reflexivity|].
  destruct (ev_impl ev) as [| |socket]; cbn [Invoke]; try reflexivity.
  unfold ReceivePacket. rewrite <- ReceivePacket_loop_traceMobility. reflexivity.
Qed.

Lemma Simulator_Run_traceMobility b fuel : forall w,
  Simulator_Run fuel (with_traceMobility b w) =
  with_traceMobility b (Simulator_Run fuel w).
Proof.
  induction fuel as [|n IH]; intros w; cbn [Simulator_Run]; [reflexivity|].
  change (IsFinished (with_traceMobility b w)) with (IsFinished w).
  destruct (IsFinished w); [reflexivity|].
  rewrite ProcessOneEvent_traceMobility. apply IH.
Qed.

Lemma Network_events_traceMobility b net : forall w,
  Network_events net (with_traceMobility b w) =
  with_traceMobility b (Network_events net w).
Proof.
  unfold Network_events.
  induction net as [|ds net IH]; intros w; cbn [fold_left]; [reflexivity|].
  rewrite <- IH. reflexivity.
Qed.

Lemma Run_traceMobility b e fs0 nSinks txp name rng net fuel :
  Run nSinks txp name rng net fuel (World_of (set_m_traceMobility b e) fs0) =
  option_map (with_traceMobility b)
    (Run nSinks txp name rng net fuel (World_of e fs0)).
Proof.
  unfold Run.
  cbn [this set_this port set_m_protocolName set_m_CSVfileName set_m_txp
       set_m_nSinks set_m_traceMobility set_routing World_of].
  destruct (InstallFlows (Z.to_nat nSinks) 0 nSinks TotalTime (port e) rng
              Run_all_Nodes Run_adhocInterfaces) as [fl|]; [|reflexivity].
  cbn [option_map]. f_equal.
  rewrite <- Simulator_Run_traceMobility. f_equal.
  unfold Simulator_Stop.
  match goal with
  | |- _ = with_traceMobility b
             (Schedule ?d ?i (CheckThroughput (Network_events net ?w))) =>
      change (with_traceMobility b
                (Schedule d i (CheckThroughput (Network_events net w))))
        with (Schedule d i
                (CheckThroughput (with_traceMobility b (Network_events net w))));
      rewrite <- (Network_events_traceMobility b net w)
  end.
  reflexivity.
Qed.

(** X13: the option [traceMobility] is parsed into its field and never read:
    whatever its value, [main] yields the same world, file and flows
    included, but for that field (which without the option holds [true]). *)
Theorem traceMobility_has_no_effect name b junk_nSinks junk_txp fs0 rng net fuel :
  main {| arg_CSVfileName := name; arg_traceMobility := Some b |}
    junk_nSinks junk_txp fs0 rng net fuel =
  option_map (with_traceMobility b)
    (main {| arg_CSVfileName := name; arg_traceMobility := None |}
       junk_nSinks junk_txp fs0 rng net fuel) /\
  (forall w,
     main {| arg_CSVfileName := name; arg_traceMobility := None |}
       junk_nSinks junk_txp fs0 rng net fuel = Some w ->
     m_traceMobility (this w) = true /\
     fs (with_traceMobility b w) = fs w /\
     flows (with_traceMobility b w) = flows w /\
     events (with_traceMobility b w) = events w).
Proof.
  split.
  - rewrite !main_unfold.
    change (csv_name {| arg_CSVfileName := name; arg_traceMobility := Some b |})
      with (csv_name {| arg_CSVfileName := name; arg_traceMobility := None |}).
    rewrite <- Run_traceMobility. reflexivity.
  - intros w Hw. split; [|repeat split].
    rewrite main_unfold in Hw.
    destruct (Run_partial
                (experiment_of {| arg_CSVfileName := name; arg_traceMobility := None |}
                   junk_nSinks junk_txp)
                (ofstream_trunc
                   (csv_name {| arg_CSVfileName := name; arg_traceMobility := None |})
                   [header] fs0)
                15 7.5
                (csv_name {| arg_CSVfileName := name; arg_traceMobility := None |})
                rng net fuel)
      as (w1 & rows & HRun & Hc & _); [lia|].
    rewrite HRun in Hw. injection Hw as <-.
    unfold config, Run_config in Hc.
    injection Hc as _ _ _ _ _ _ Ht _ _. rewrite Ht.
    destruct name; reflexivity.
Qed.
